(** * idoklad2fakturoid: a shallow embedding of [idoklad2fakturoid.py]

    The script reads invoices exported from iDoklad as JSON, converts each
    one to the Fakturoid schema and posts it to the Fakturoid API, keeping
    the list of Fakturoid subjects in a pickle cache file.

    Python values are embedded as a JSON-shaped inductive type, exceptions
    as an error type, and the converter functions as functions into the
    error monad, statement by statement and in Python's evaluation order.
    The script body ([__main__]) runs in a state-and-error monad over a
    world made of the file system and the log of observable effects. *)

From Stdlib Require Import ZArith String List Bool Lia.
From Stdlib Require Import Floats.SpecFloat.
From stdpp Require Import base option list gmap strings.

Local Open Scope string_scope.
Local Open Scope list_scope.
Local Open Scope Z_scope.
Local Set Warnings "-register-all".

(** ** Python values *)

(** What [json.load], [resp.json()] and the converter produce: [None],
    booleans, integers, floats, strings, lists and dicts with string keys.
    A dict is kept as its items in insertion order. *)
Inductive value : Type :=
| VNone
| VBool (b : bool)
| VInt (n : Z)
| VFloat (f : spec_float)
| VStr (s : string)
| VList (xs : list value)
| VDict (items : list (string * value)).

(** [d[k]] on the items of a dict. *)
Fixpoint dict_get (items : list (string * value)) (k : string) : option value :=
  match items with
  | [] => None
  | (k', v) :: rest => if String.eqb k' k then Some v else dict_get rest k
  end.

(** [d[k] = v] on the items of a dict: an existing key keeps its position. *)
Fixpoint dict_set (items : list (string * value)) (k : string) (v : value)
  : list (string * value) :=
  match items with
  | [] => [(k, v)]
  | (k', v') :: rest =>
      if String.eqb k' k then (k', v) :: rest else (k', v') :: dict_set rest k v
  end.

(** Numbers: [bool] is a subclass of [int], and an [int] is compared with a
    [float] by exact value. *)
Inductive number : Type :=
| NInt (n : Z)
| NFloat (f : spec_float).

Definition to_number (v : value) : option number :=
  match v with
  | VBool b => Some (NInt (Z.b2z b))
  | VInt n => Some (NInt n)
  | VFloat f => Some (NFloat f)
  | _ => None
  end.

Definition float_eq_int (f : spec_float) (n : Z) : bool :=
  match f with
  | S754_zero _ => n =? 0
  | S754_finite s m e =>
      let sm := if s then Z.neg m else Z.pos m in
      if 0 <=? e then n =? sm * 2 ^ e else n * 2 ^ (- e) =? sm
  | S754_infinity _ => false
  | S754_nan => false
  end.

Definition number_eq (x y : number) : bool :=
  match x, y with
  | NInt n, NInt m => n =? m
  | NInt n, NFloat f => float_eq_int f n
  | NFloat f, NInt n => float_eq_int f n
  | NFloat f, NFloat g => SFeqb f g
  end.

(** Python's [==] on these values. *)
Fixpoint py_eq (a b : value) {struct a} : bool :=
  match a, b with
  | VNone, VNone => true
  | VStr s, VStr t => String.eqb s t
  | VList xs, VList ys =>
      (fix elems (xs ys : list value) {struct xs} : bool :=
         match xs, ys with
         | [], [] => true
         | x :: xs', y :: ys' => py_eq x y && elems xs' ys'
         | _, _ => false
         end) xs ys
  | VDict d, VDict e =>
      Nat.eqb (length d) (length e) &&
      (fix entries (d : list (string * value)) {struct d} : bool :=
         match d with
         | [] => true
         | (k, v) :: d' =>
             match dict_get e k with
             | Some w => py_eq v w && entries d'
             | None => false
             end
         end) d
  | VBool x, _ =>
      match to_number b with
      | Some y => number_eq (NInt (Z.b2z x)) y
      | None => false
      end
  | VInt n, _ =>
      match to_number b with
      | Some y => number_eq (NInt n) y
      | None => false
      end
  | VFloat f, _ =>
      match to_number b with
      | Some y => number_eq (NFloat f) y
      | None => false
      end
  | _, _ => false
  end.

(** ** Exceptions and the error monad *)

(** The exceptions the script can meet. [Exception args] is what the
    script raises itself, with the arguments it passes; [OtherError] stands
    for any other subclass of [Exception] raised by a library
    ([UnpicklingError], [JSONDecodeError], ...). *)
Inductive exn : Type :=
| Exception (args : list value)
| KeyError (key : string)
| TypeError
| IOError
| OtherError (name : string).

Inductive result (A : Type) : Type :=
| Ok (a : A)
| Raise (e : exn).
Arguments Ok {A} a.
Arguments Raise {A} e.

#[global] Instance result_ret : MRet result := fun A a => Ok a.
#[global] Instance result_bind : MBind result := fun A B f m =>
  match m with
  | Ok a => f a
  | Raise e => Raise e
  end.

(** [v[k]] for a string key [k]. *)
Definition subscript (v : value) (k : string) : result value :=
  match v with
  | VDict items =>
      match dict_get items k with
      | Some x => Ok x
      | None => Raise (KeyError k)
      end
  | _ => Raise TypeError
  end.

Notation "v .[ k ]" := (subscript v k) (at level 1, left associativity, format "v .[ k ]").

(** The one-character strings of a string, as [for c in s] yields them. *)
Fixpoint chars (s : string) : list value :=
  match s with
  | EmptyString => []
  | String c rest => VStr (String c EmptyString) :: chars rest
  end.

(** What [for x in v] iterates over. *)
Definition py_iter (v : value) : result (list value) :=
  match v with
  | VList xs => Ok xs
  | VDict items => Ok (map (fun kv => VStr (fst kv)) items)
  | VStr s => Ok (chars s)
  | _ => Raise TypeError
  end.

(** [sep.join] called with the positional arguments [args]: [str.join]
    takes exactly one argument, an iterable of strings. *)
Fixpoint join_strings (sep : string) (parts : list value) : result string :=
  match parts with
  | [] => Ok EmptyString
  | [VStr s] => Ok s
  | VStr s :: rest => tail ← join_strings sep rest; Ok (s +:+ sep +:+ tail)
  | _ :: _ => Raise TypeError
  end.

Definition str_join (sep : string) (args : list value) : result value :=
  match args with
  | [iterable] =>
      parts ← py_iter iterable;
      s ← join_strings sep parts;
      Ok (VStr s)
  | _ => Raise TypeError
  end.

(** ** Module constants *)

Definition CACHE_FILE : string := "idoklad2fakturoid.cache".

Definition newline : Ascii.ascii := Ascii.ascii_of_nat 10.

Definition MESSAGES : value :=
  VDict
    [ ("subject_not_found",
       VStr "Subject with reg. no. %s not found in Fakturoid. You need to create it first.");
      ("request_failed",
       VStr ("%s %s failed with code %s" +:+ String newline (String newline "%s")));
      ("unknown_payment_method",
       VStr "Unknown iDoklad payment method code: %s") ].

(** ** The converter *)

Definition make_fakturoid_payment_method (idoklad_code : value) : result value :=
  if py_eq idoklad_code (VStr "B") then
    Ok (VStr "bank")
  else
    msg ← MESSAGES.["unknown_payment_method"];
    Raise (Exception [msg; idoklad_code]).

(** The [for subject in fakturoid_subjects] loop of
    [find_fakturoid_subject_id], with the [raise] that follows it. *)
Fixpoint find_subject_loop (subjects : list value) (registration_no : value)
  : result value :=
  match subjects with
  | [] =>
      msg ← MESSAGES.["subject_not_found"];
      Raise (Exception [msg; registration_no])
  | subject :: rest =>
      r ← subject.["registration_no"];
      if py_eq r registration_no then
        subject.["id"]
      else
        find_subject_loop rest registration_no
  end.

Definition find_fakturoid_subject_id (fakturoid_subjects registration_no : value)
  : result value :=
  subjects ← py_iter fakturoid_subjects;
  find_subject_loop subjects registration_no.

(** The [for item in ...] loop of [convert_invoice_lines]; [lines] is the
    list built so far. *)
Fixpoint convert_lines_loop (items : list value) (lines : list value)
  : result (list value) :=
  match items with
  | [] => Ok lines
  | item :: rest =>
      code ← item.["Code"];
      skip ← (if py_eq code (VStr "ZaokPol") then
                total ← item.["TotalPrice"];
                Ok (py_eq total (VInt 0))
              else Ok false);
      if skip : bool then
        convert_lines_loop rest lines
      else
        name ← item.["Name"];
        quantity ← item.["Amount"];
        unit_price ← item.["UnitPrice"];
        vat_rate ← item.["VatRate"];
        convert_lines_loop rest
          (lines ++ [VDict [("name", name); ("quantity", quantity);
                            ("unit_price", unit_price); ("vat_rate", vat_rate)]])
  end.

Definition convert_invoice_lines (idoklad_invoice : value) : result value :=
  items_v ← idoklad_invoice.["IssuedInvoiceItems"];
  items ← py_iter items_v;
  lines ← convert_lines_loop items [];
  Ok (VList lines).

(** The dict display of [convert_invoice]: the values are computed in the
    order they are written, and the first one that raises ends the call. *)
Definition convert_invoice (idoklad_invoice fakturoid_subjects : value)
  : result value :=
  number ← idoklad_invoice.["DocumentNumber"];
  variable_symbol ← idoklad_invoice.["VariableSymbol"];
  purchaser ← idoklad_invoice.["Purchaser"];
  registration_no ← purchaser.["IdentificationNumber"];
  subject_id ← find_fakturoid_subject_id fakturoid_subjects registration_no;
  order_number ← idoklad_invoice.["OrderNumber"];
  issued_on ← idoklad_invoice.["DateOfIssue"];
  taxable_fulfillment_due ← idoklad_invoice.["DateOfTaxing"];
  due ← idoklad_invoice.["Maturity"];
  note ← idoklad_invoice.["ItemsTextPrefix"];
  footer_note ← idoklad_invoice.["ItemsTextSuffix"];
  private_note ← idoklad_invoice.["Note"];
  address1 ← idoklad_invoice.["MyCompanyDocumentAddress"];
  account_number ← address1.["AccountNumber"];
  address2 ← idoklad_invoice.["MyCompanyDocumentAddress"];
  bank_number_code ← address2.["BankNumberCode"];
  bank_account ← str_join "/" [account_number; bank_number_code];
  address3 ← idoklad_invoice.["MyCompanyDocumentAddress"];
  iban ← address3.["Iban"];
  address4 ← idoklad_invoice.["MyCompanyDocumentAddress"];
  swift_bic ← address4.["Swift"];
  payment_option ← idoklad_invoice.["PaymentOption"];
  payment_code ← payment_option.["Code"];
  payment_method ← make_fakturoid_payment_method payment_code;
  currency_v ← idoklad_invoice.["Currency"];
  currency ← currency_v.["Code"];
  exchange_rate ← idoklad_invoice.["ExchangeRate"];
  lines ← convert_invoice_lines idoklad_invoice;
  Ok (VDict
        [ ("number", number);
          ("variable_symbol", variable_symbol);
          ("subject_id", subject_id);
          ("order_number", order_number);
          ("issued_on", issued_on);
          ("taxable_fulfillment_due", taxable_fulfillment_due);
          ("due", due);
          ("note", note);
          ("footer_note", footer_note);
          ("private_note", private_note);
          ("bank_account", bank_account);
          ("iban", iban);
          ("swift_bic", swift_bic);
          ("payment_method", payment_method);
          ("currency", currency);
          ("exchange_rate", exchange_rate);
          ("language", VStr "en");
          ("lines", lines) ]).

(** [k in v] for a string [k]. *)
Definition py_contains (v : value) (k : string) : result bool :=
  match v with
  | VDict items => Ok (bool_decide (is_Some (dict_get items k)))
  | VList xs => Ok (existsb (fun x => py_eq x (VStr k)) xs)
  | VStr s => Ok (bool_decide (is_Some (String.index 0 k s)))
  | _ => Raise TypeError
  end.

(** [v[k] = x] for a string key [k]. *)
Definition setitem (v : value) (k : string) (x : value) : result value :=
  match v with
  | VDict items => Ok (VDict (dict_set items k x))
  | _ => Raise TypeError
  end.

(** ** The world of the script *)

Record request : Type := mkRequest {
  req_method : string;
  req_url : string;
  req_auth : string * string;
  req_headers : list (string * string);
  req_json : option value
}.

(** [resp.status_code], [resp.text] and what [resp.json()] does. *)
Record response : Type := mkResponse {
  status_code : Z;
  text : string;
  json : result value
}.

(** An object handed to [print]. *)
Inductive printed : Type :=
| PVal (v : value)
| PExn (e : exn).

(** The observable effects of a run, in the order they happen. *)
Inductive event : Type :=
| EvPrint (objs : list printed)
| EvRequest (req : request)
| EvWrite (path : string) (data : list Byte.byte).

(** What a path of the file system names. [open] raises an [IOError] on a
    missing path when reading, and on a directory in either mode. *)
Inductive node : Type :=
| File (data : list Byte.byte)
| Directory.

Record world : Type := mkWorld {
  fs : gmap string node;
  log : list event
}.

(** The requests sent so far: what the remote service has seen. *)
Fixpoint requests (l : list event) : list request :=
  match l with
  | [] => []
  | EvRequest req :: rest => req :: requests rest
  | _ :: rest => requests rest
  end.

Definition emit (e : event) (w : world) : world :=
  {| fs := fs w; log := log w ++ [e] |}.

(** State and exceptions: a computation gets a world and gives a result or
    an exception, and the world it leaves. *)
Record io (A : Type) : Type := IO { run : world -> result A * world }.
Arguments IO {A} run.
Arguments run {A} _ _.

#[global] Instance io_ret : MRet io := fun A a => IO (fun w => (Ok a, w)).
#[global] Instance io_bind : MBind io := fun A B f m =>
  IO (fun w =>
        match run m w with
        | (Ok a, w') => run (f a) w'
        | (Raise e, w') => (Raise e, w')
        end).

Definition lift {A : Type} (r : result A) : io A := IO (fun w => (r, w)).

Definition raise {A : Type} (e : exn) : io A := lift (Raise e).

(** [try: body / except ... as e: handler e]; every exception of the model
    is an instance of [Exception]. *)
Definition try_except {A : Type} (body : io A) (handler : exn -> io A) : io A :=
  IO (fun w =>
        match run body w with
        | (Ok a, w') => (Ok a, w')
        | (Raise e, w') => run (handler e) w'
        end).

Definition print (objs : list printed) : io unit :=
  IO (fun w => (Ok (), emit (EvPrint objs) w)).

(** [open(path, 'rb')] and the read of the whole file. *)
Definition read_file (path : string) : io (list Byte.byte) :=
  IO (fun w =>
        match fs w !! path with
        | Some (File data) => (Ok data, w)
        | Some Directory => (Raise IOError, w)
        | None => (Raise IOError, w)
        end).

(** [open(path, 'wb')] and the write of [data]: the file is created or
    replaced. *)
Definition write_file (path : string) (data : list Byte.byte) : io unit :=
  IO (fun w =>
        match fs w !! path with
        | Some Directory => (Raise IOError, w)
        | _ => (Ok (), {| fs := <[path := File data]> (fs w);
                          log := log w ++ [EvWrite path data] |})
        end).

Record arguments : Type := mkArguments {
  fakturoid_account_name : string;
  fakturoid_email : string;
  fakturoid_api_key : string;
  idoklad_invoices_json : string
}.

Record FakturoidAPI : Type := mkFakturoidAPI {
  session_auth : string * string;
  session_headers : list (string * string);
  api_url : string
}.

Definition FakturoidAPI_init (account_name email api_key : string) : FakturoidAPI :=
  {| session_auth := (email, api_key);
     session_headers := [("User-Agent", "iDoklad2Fakturoid (dan.keder@gmail.com)")];
     api_url := "https://app.fakturoid.cz/api/v2/accounts/" +:+ account_name |}.

Section Script.

(** The libraries and the remote service are parameters of the script:
    [pickle] and [json] as functions on file contents, the service as a
    function from the requests it has seen and the new request to a
    response, or to the exception the HTTP library raises. *)
Variable pickle_dumps : value -> list Byte.byte.
Variable pickle_loads : list Byte.byte -> result value.
Variable json_loads : list Byte.byte -> result value.
Variable respond : list request -> request -> result response.

Definition send (req : request) : io response :=
  IO (fun w => (respond (requests (log w)) req, emit (EvRequest req) w)).

Definition _api_get (self : FakturoidAPI) (path : string) : io response :=
  send {| req_method := "GET"; req_url := api_url self +:+ path;
          req_auth := session_auth self; req_headers := session_headers self;
          req_json := None |}.

Definition _api_post (self : FakturoidAPI) (path : string) (payload : value)
  : io response :=
  send {| req_method := "POST"; req_url := api_url self +:+ path;
          req_auth := session_auth self; req_headers := session_headers self;
          req_json := Some payload |}.

Definition get_subjects (self : FakturoidAPI) : io value :=
  resp ← _api_get self "/subjects.json";
  if status_code resp =? 200 then
    lift (json resp)
  else
    msg ← lift MESSAGES.["request_failed"];
    raise (Exception [msg; VStr "GET"; VStr "/subjects.json";
                      VInt (status_code resp); VStr (text resp)]).

Definition create_invoice (self : FakturoidAPI) (invoice : value) : io value :=
  resp ← _api_post self "/invoices.json" invoice;
  if status_code resp =? 201 then
    lift (json resp)
  else
    msg ← lift MESSAGES.["request_failed"];
    raise (Exception [msg; VStr "POST"; VStr "/invoices.json";
                      VInt (status_code resp); VStr (text resp)]).

Definition pickle_load (path : string) : io value :=
  data ← read_file path;
  lift (pickle_loads data).

Definition pickle_dump (obj : value) (path : string) : io unit :=
  write_file path (pickle_dumps obj).

Definition json_load (path : string) : io value :=
  data ← read_file path;
  lift (json_loads data).

(** The [try] block that loads the cache. *)
Definition load_cache : io value :=
  try_except
    (print [PVal (VStr "Loading Fakturoid API cache")];;
     pickle_load CACHE_FILE)
    (fun e =>
       match e with
       | IOError => mret (VDict [])
       | _ =>
           print [PVal (VStr "WARNING: Cache load failed: %s. Continuing anyway.");
                  PExn e];;
           mret (VDict [])
       end).

(** The [if 'fakturoid_subjects' not in cache] block; gives the cache as
    the block leaves it. *)
Definition fetch_subjects (fakturoid : FakturoidAPI) (cache : value) : io value :=
  present ← lift (py_contains cache "fakturoid_subjects");
  if negb present then
    print [PVal (VStr "Loading subjects from Fakturoid API")];;
    subjects ← get_subjects fakturoid;
    cache' ← lift (setitem cache "fakturoid_subjects" subjects);
    pickle_dump cache' CACHE_FILE;;
    mret cache'
  else
    mret cache.

(** The body of the [for ... in enumerate(idoklad_invoices['Data'])] loop. *)
Definition process_invoice (fakturoid : FakturoidAPI) (fakturoid_subjects : value)
    (idoklad_invoice : value) : io unit :=
  number ← lift idoklad_invoice.["DocumentNumber"];
  print [PVal (VStr "Processing iDoklad invoice"); PVal number];;
  converted ← lift (convert_invoice idoklad_invoice fakturoid_subjects);
  fakturoid_invoice ← create_invoice fakturoid converted;
  created ← lift fakturoid_invoice.["number"];
  print [PVal (VStr "Crated Fakturoid invoice"); PVal created].

Fixpoint for_each (xs : list value) (body : value -> io unit) : io unit :=
  match xs with
  | [] => mret ()
  | x :: rest => body x;; for_each rest body
  end.

Definition main (args : arguments) : io unit :=
  cache ← load_cache;
  let fakturoid :=
    FakturoidAPI_init (fakturoid_account_name args) (fakturoid_email args)
                      (fakturoid_api_key args) in
  idoklad_invoices ← json_load (idoklad_invoices_json args);
  cache ← fetch_subjects fakturoid cache;
  fakturoid_subjects ← lift cache.["fakturoid_subjects"];
  data ← lift idoklad_invoices.["Data"];
  invoices ← lift (py_iter data);
  for_each invoices (process_invoice fakturoid fakturoid_subjects);;
  print [PVal (VStr "Done.")].

End Script.

(** ** Vocabulary of the specification *)

(** The script raises plain [Exception]s; the error kinds of the
    specification are told apart by the message they carry. *)
Definition SubjectNotFound (registration_no : value) : exn :=
  Exception
    [VStr "Subject with reg. no. %s not found in Fakturoid. You need to create it first.";
     registration_no].

Definition UnknownPaymentMethod (code : value) : exn :=
  Exception [VStr "Unknown iDoklad payment method code: %s"; code].

Definition has_key (v : value) (k : string) : bool :=
  match v.[k] with
  | Ok _ => true
  | Raise _ => false
  end.

Definition has_keys (v : value) (ks : list string) : bool := forallb (has_key v) ks.

(** The purchaser's identification number of a source invoice. *)
Definition purchaser_registration_no (idoklad_invoice : value) : result value :=
  purchaser ← idoklad_invoice.["Purchaser"];
  purchaser.["IdentificationNumber"].

(** Whether the registration number of [subject] equals [registration_no];
    [None] when the subject has none. *)
Definition subject_matches (registration_no subject : value) : option bool :=
  match subject.["registration_no"] with
  | Ok r => Some (py_eq r registration_no)
  | Raise _ => None
  end.

(** [subject] is the first of [subjects], in list order, whose
    registration number equals [registration_no]. *)
Definition first_match (subjects : list value) (registration_no subject : value)
  : Prop :=
  exists before after,
    subjects = before ++ subject :: after /\
    Forall (fun s => subject_matches registration_no s = Some false) before /\
    subject_matches registration_no subject = Some true.

Definition no_match (subjects : list value) (registration_no : value) : Prop :=
  Forall (fun s => subject_matches registration_no s = Some false) subjects.

(** The keys [convert_invoice] reads before the subject lookup, and between
    the lookup and the bank account. *)
Definition keys_before_subject : list string :=
  ["DocumentNumber"; "VariableSymbol"].

Definition keys_before_bank_account : list string :=
  ["OrderNumber"; "DateOfIssue"; "DateOfTaxing"; "Maturity";
   "ItemsTextPrefix"; "ItemsTextSuffix"; "Note"].

(** The keys of a source line item. *)
Definition line_item_keys : list string :=
  ["Code"; "TotalPrice"; "Name"; "Amount"; "UnitPrice"; "VatRate"].

(** The filter of the specification: the code is the sentinel and the
    total price equals zero. *)
Definition is_rounding_item (item : value) : bool :=
  match item.["Code"], item.["TotalPrice"] with
  | Ok code, Ok total => py_eq code (VStr "ZaokPol") && py_eq total (VInt 0)
  | _, _ => false
  end.

(** [line] is the destination line item of the source line item [item]. *)
Definition destination_line (item line : value) : Prop :=
  exists name quantity unit_price vat_rate,
    item.["Name"] = Ok name /\
    item.["Amount"] = Ok quantity /\
    item.["UnitPrice"] = Ok unit_price /\
    item.["VatRate"] = Ok vat_rate /\
    line = VDict [("name", name); ("quantity", quantity);
                  ("unit_price", unit_price); ("vat_rate", vat_rate)].

(** The specification of [convert_invoice_lines]: the items that are not
    rounding items, in their order, each as its destination line. *)
Definition lines_spec (items lines : list value) : Prop :=
  Forall2 destination_line
          (List.filter (fun item => negb (is_rounding_item item)) items) lines.

(** ** Sample data *)

Definition subject (id : Z) (registration_no : string) : value :=
  VDict [("id", VInt id); ("name", VStr "Customer");
         ("registration_no", VStr registration_no)].

Definition sample_subjects : list value :=
  [subject 11 "11111111"; subject 22 "27074358"; subject 33 "27074358"].

Definition line_item (code name : string) (total : value) : value :=
  VDict [("Name", VStr name); ("Amount", VInt 1); ("UnitPrice", total);
         ("VatRate", VInt 21); ("TotalPrice", total); ("Code", VStr code)].

Definition sample_items : list value :=
  [line_item "A1" "Consulting" (VInt 1000);
   line_item "ZaokPol" "Rounding" (VFloat (S754_zero false));
   line_item "ZaokPol" "Rounding" (VInt 1);
   line_item "B2" "Free sample" (VInt 0)].

Definition invoice (number registration_no payment_code : string) : value :=
  VDict
    [("DocumentNumber", VStr number);
     ("VariableSymbol", VStr number);
     ("Purchaser", VDict [("IdentificationNumber", VStr registration_no)]);
     ("OrderNumber", VNone);
     ("DateOfIssue", VStr "2016-01-15");
     ("DateOfTaxing", VStr "2016-01-15");
     ("Maturity", VInt 14);
     ("ItemsTextPrefix", VStr "We invoice you for:");
     ("ItemsTextSuffix", VStr "Thank you.");
     ("Note", VNone);
     ("MyCompanyDocumentAddress",
      VDict [("AccountNumber", VStr "123456789"); ("BankNumberCode", VStr "0800");
             ("Iban", VStr "CZ6508000000000123456789"); ("Swift", VStr "GIBACZPX")]);
     ("PaymentOption", VDict [("Code", VStr payment_code)]);
     ("Currency", VDict [("Code", VStr "CZK")]);
     ("ExchangeRate", VInt 1);
     ("IssuedInvoiceItems", VList sample_items)].

Definition sample_invoice : value := invoice "20160001" "27074358" "B".

(** ** Observations on a run *)

Definition is_get (req : request) : bool := String.eqb (req_method req) "GET".

Definition is_post (req : request) : bool := String.eqb (req_method req) "POST".

(** The remote list-subjects calls and the remote invoice-creation calls
    among the effects of a run. *)
Definition subject_fetches (l : list event) : list request :=
  List.filter is_get (requests l).

Definition invoice_posts (l : list event) : list request :=
  List.filter is_post (requests l).

Definition loading_cache : event :=
  EvPrint [PVal (VStr "Loading Fakturoid API cache")].

Definition cache_warning (e : exn) : event :=
  EvPrint [PVal (VStr "WARNING: Cache load failed: %s. Continuing anyway."); PExn e].

Definition is_warning (ev : event) : bool :=
  match ev with
  | EvPrint (PVal (VStr s) :: _) =>
      String.eqb s "WARNING: Cache load failed: %s. Continuing anyway."
  | _ => false
  end.

(** The warnings a run has printed. *)
Definition warnings (l : list event) : list event := List.filter is_warning l.

(** The request of [get_subjects]. *)
Definition subjects_request (fakturoid : FakturoidAPI) : request :=
  {| req_method := "GET"; req_url := api_url fakturoid +:+ "/subjects.json";
     req_auth := session_auth fakturoid; req_headers := session_headers fakturoid;
     req_json := None |}.

(** ** A sample run *)

Definition sample_args : arguments :=
  {| fakturoid_account_name := "acme"; fakturoid_email := "billing@example.com";
     fakturoid_api_key := "secret"; idoklad_invoices_json := "invoices.json" |}.

Definition sample_cache : value :=
  VDict [("fakturoid_subjects", VList sample_subjects)].

(** Two invoices: the purchaser of the first is a cached subject, the
    purchaser of the second is not. *)
Definition sample_input : value :=
  VDict [("Data", VList [invoice "20160001" "27074358" "B";
                         invoice "20160002" "99999999" "B"])].

(** A service that accepts every request. *)
Definition sample_respond (seen : list request) (req : request) : result response :=
  Ok {| status_code := if is_post req then 201 else 200;
        text := "OK";
        json := if is_post req
                then Ok (VDict [("number", VStr "2016-0001")])
                else Ok (VList sample_subjects) |}.

(** Stand-ins for [pickle] and [json] on two files: the cache file holds
    the pickled [sample_cache], the input file the text of [sample_input]. *)
Definition sample_cache_bytes : list Byte.byte := [Byte.x80; Byte.x04].

Definition sample_input_bytes : list Byte.byte := [Byte.x7b; Byte.x7d].

Definition sample_pickle_dumps (obj : value) : list Byte.byte := sample_cache_bytes.

Definition sample_pickle_loads (data : list Byte.byte) : result value :=
  match data with
  | [Byte.x80; Byte.x04] => Ok sample_cache
  | _ => Raise (OtherError "UnpicklingError")
  end.

Definition sample_json_loads (data : list Byte.byte) : result value :=
  match data with
  | [Byte.x7b; Byte.x7d] => Ok sample_input
  | _ => Raise (OtherError "JSONDecodeError")
  end.

Definition empty_world : world := {| fs := ∅; log := [] |}.

Definition sample_world : world :=
  {| fs := {[ CACHE_FILE := File sample_cache_bytes;
              "invoices.json" := File sample_input_bytes ]};
     log := [] |}.

(** The cache path names a directory. *)
Definition directory_world : world :=
  {| fs := {[ CACHE_FILE := Directory ]}; log := [] |}.

(** The cache file is not a pickle. *)
Definition corrupt_world : world :=
  {| fs := {[ CACHE_FILE := File [Byte.x00] ]}; log := [] |}.

(** [sends n P m]: whatever the world, [m] sends at most [n] requests, all
    of them satisfying [P], and leaves earlier requests as they were. *)
Definition sends {A : Type} (n : nat) (P : request -> Prop) (m : io A) : Prop :=
  forall w,
  exists reqs,
    requests (log (snd (run m w))) = requests (log w) ++ reqs /\
    Forall P reqs /\ (length reqs <= n)%nat.

(** The warning rule as the specification words it: when the cache file is
    not absent and loading it fails, whatever the reason, the load surfaces
    a warning. *)
Definition warns_unless_absent (pickle_loads : list Byte.byte -> result value)
    (w : world) : Prop :=
  fs w !! CACHE_FILE <> None ->
  (exists e w', run (pickle_load pickle_loads CACHE_FILE) w = (Raise e, w')) ->
  warnings (log (snd (run (load_cache pickle_loads) w))) <> [].

(** A first run: the input file is there, the cache file is not. *)
Definition cold_world : world :=
  {| fs := {[ "invoices.json" := File sample_input_bytes ]}; log := [] |}.

(** The error kind of the specification for a remote call that failed. *)
Definition RequestFailed (method path : string) (status : Z) (body : string) : exn :=
  Exception
    [VStr ("%s %s failed with code %s" +:+ String newline (String newline "%s"));
     VStr method; VStr path; VInt status; VStr body].

(** The request of [create_invoice]. *)
Definition invoices_request (fakturoid : FakturoidAPI) (invoice : value) : request :=
  {| req_method := "POST"; req_url := api_url fakturoid +:+ "/invoices.json";
     req_auth := session_auth fakturoid; req_headers := session_headers fakturoid;
     req_json := Some invoice |}.

(** A dict with the four keys of a destination line item, in their order. *)
Definition is_destination_line (line : value) : Prop :=
  exists name quantity unit_price vat_rate,
    line = VDict [("name", name); ("quantity", quantity);
                  ("unit_price", unit_price); ("vat_rate", vat_rate)].

(** The exceptions [convert_invoice] can raise on [idoklad_invoice]. *)
Definition conversion_error (idoklad_invoice : value) (e : exn) : Prop :=
  (exists key, e = KeyError key) \/
  e = TypeError \/
  (exists registration_no,
      purchaser_registration_no idoklad_invoice = Ok registration_no /\
      e = SubjectNotFound registration_no).

(** What reading and parsing the file at [path] gives in the world [w]. *)
Definition file_json (json_loads : list Byte.byte -> result value)
    (w : world) (path : string) : result value :=
  match fs w !! path with
  | Some (File data) => json_loads data
  | Some Directory => Raise IOError
  | None => Raise IOError
  end.

(** [only_cache_written w w']: from [w] to [w'] no path other than the
    cache path has changed. *)
Definition only_cache_written (w w' : world) : Prop :=
  forall path, path <> CACHE_FILE -> fs w' !! path = fs w !! path.

(** [steps R m]: running [m] takes every world to one related to it by [R]. *)
Definition steps {A : Type} (R : world -> world -> Prop) (m : io A) : Prop :=
  forall w, R w (snd (run m w)).

(** The relations the primitive effects of the script respect: printing,
    sending a request and writing the cache file. *)
Record frame (R : world -> world -> Prop) : Prop := mkFrame {
  frame_refl : forall w, R w w;
  frame_trans : forall w1 w2 w3, R w1 w2 -> R w2 w3 -> R w1 w3;
  frame_emit : forall e w, R w (emit e w);
  frame_write : forall data w,
      R w {| fs := <[CACHE_FILE := File data]> (fs w);
             log := log w ++ [EvWrite CACHE_FILE data] |}
}.

(** One turn of the loop of [convert_invoice_lines], on its own: [None]
    when the item is skipped, the line that is appended otherwise. *)
Definition convert_line_item (item : value) : result (option value) :=
  code ← item.["Code"];
  skip ← (if py_eq code (VStr "ZaokPol") then
            total ← item.["TotalPrice"];
            Ok (py_eq total (VInt 0))
          else Ok false);
  if skip : bool then
    Ok None
  else
    name ← item.["Name"];
    quantity ← item.["Amount"];
    unit_price ← item.["UnitPrice"];
    vat_rate ← item.["VatRate"];
    Ok (Some (VDict [("name", name); ("quantity", quantity);
                     ("unit_price", unit_price); ("vat_rate", vat_rate)])).

(** The lines built so far, after one turn of the loop. *)
Definition append_line (lines : list value) (line : option value) : list value :=
  match line with
  | Some l => lines ++ [l]
  | None => lines
  end.

(** ** Values and subscripts *)

Arguments subscript : simpl never.

Lemma bind_ok {A B : Type} (m : result A) (f : A -> result B) (a : A) :
  m = Ok a -> m ≫= f = f a.
Proof. intros ->. reflexivity. Qed.

Lemma bind_raise {A B : Type} (m : result A) (f : A -> result B) (e : exn) :
  m = Raise e -> m ≫= f = Raise e.
Proof. intros ->. reflexivity. Qed.

(** Only the string [s] itself is [==] to the string [s]. *)
Lemma py_eq_str (v : value) (s : string) : py_eq v (VStr s) = true <-> v = VStr s.
Proof.
  destruct v; simpl; try (split; [discriminate | discriminate]).
  rewrite String.eqb_eq. split; [intros -> | intros [= ->]]; reflexivity.
Qed.

Lemma py_eq_str_false (v : value) (s : string) :
  v <> VStr s -> py_eq v (VStr s) = false.
Proof.
  intros Hne. destruct (py_eq v (VStr s)) eqn:E; [|reflexivity].
  apply py_eq_str in E. contradiction.
Qed.

Lemma has_key_true (v : value) (k : string) :
  has_key v k = true -> exists x, v.[k] = Ok x.
Proof.
  unfold has_key. destruct (v.[k]) as [x|e]; [eauto | discriminate].
Qed.

Lemma has_keys_cons (v : value) (k : string) (ks : list string) :
  has_keys v (k :: ks) = true -> (exists x, v.[k] = Ok x) /\ has_keys v ks = true.
Proof.
  unfold has_keys. simpl. intros [H1 H2]%andb_prop.
  split; [apply has_key_true|]; assumption.
Qed.

(** Turns a [has_keys] hypothesis into one equation per key. *)
Ltac split_keys H :=
  repeat (let Hk := fresh "Hkey" in
          let x := fresh "x" in
          apply has_keys_cons in H; destruct H as [[x Hk] H]);
  clear H.

(** ** The payment method *)

Lemma make_fakturoid_payment_method_other (code : value) :
  code <> VStr "B" ->
  make_fakturoid_payment_method code = Raise (UnknownPaymentMethod code).
Proof.
  intros Hne. unfold make_fakturoid_payment_method.
  rewrite (py_eq_str_false _ _ Hne). reflexivity.
Qed.

(** C5. The payment-method translation maps the source code "B" to "bank",
    and every other source payment code fails with UnknownPaymentMethod
    carrying that code. *)
Theorem payment_method_translation :
  make_fakturoid_payment_method (VStr "B") = Ok (VStr "bank") /\
  forall code : value,
    code <> VStr "B" ->
    make_fakturoid_payment_method code = Raise (UnknownPaymentMethod code).
Proof.
  split; [reflexivity|]. exact make_fakturoid_payment_method_other.
Qed.

Lemma payment_method_translation_witness :
  make_fakturoid_payment_method (VStr "B") = Ok (VStr "bank") /\
  make_fakturoid_payment_method (VStr "C") = Raise (UnknownPaymentMethod (VStr "C")) /\
  make_fakturoid_payment_method (VInt 66) = Raise (UnknownPaymentMethod (VInt 66)).
Proof.
  split; [exact (proj1 payment_method_translation)|].
  split; apply (proj2 payment_method_translation); discriminate.
Defined.

(** ** The subject lookup *)

Lemma find_subject_loop_no_match (subjects : list value) (registration_no : value) :
  no_match subjects registration_no ->
  find_subject_loop subjects registration_no = Raise (SubjectNotFound registration_no).
Proof.
  unfold no_match. induction 1 as [|s rest Hs _ IH]; [reflexivity|].
  simpl. unfold subject_matches in Hs.
  destruct (s.["registration_no"]) as [r|]; [|discriminate].
  injection Hs as Hs. simpl. rewrite Hs. exact IH.
Qed.

Lemma find_subject_loop_first_match (subjects : list value) (registration_no s : value) :
  first_match subjects registration_no s ->
  find_subject_loop subjects registration_no = s.["id"].
Proof.
  intros (before & after & -> & Hbefore & Hs).
  induction Hbefore as [|x rest Hx _ IH]; simpl.
  - unfold subject_matches in Hs.
    destruct (s.["registration_no"]) as [r|]; [|discriminate].
    injection Hs as Hs. simpl. rewrite Hs. reflexivity.
  - unfold subject_matches in Hx.
    destruct (x.["registration_no"]) as [r|]; [|discriminate].
    injection Hx as Hx. simpl. rewrite Hx. exact IH.
Qed.

(** The lookup gives the identifier of the first matching subject. *)
Lemma find_fakturoid_subject_id_first_match
    (subjects : list value) (registration_no s id : value) :
  first_match subjects registration_no s ->
  s.["id"] = Ok id ->
  find_fakturoid_subject_id (VList subjects) registration_no = Ok id.
Proof.
  intros Hfirst Hid. unfold find_fakturoid_subject_id. simpl.
  rewrite (find_subject_loop_first_match _ _ _ Hfirst). exact Hid.
Qed.

Lemma find_fakturoid_subject_id_no_match (subjects : list value) (registration_no : value) :
  no_match subjects registration_no ->
  find_fakturoid_subject_id (VList subjects) registration_no
  = Raise (SubjectNotFound registration_no).
Proof.
  intros H. unfold find_fakturoid_subject_id. simpl.
  apply find_subject_loop_no_match, H.
Qed.

(** ** The conversion of an invoice *)

(** [str.join] called with two arguments raises a [TypeError], whatever
    the arguments are. *)
Lemma str_join_two_arguments (sep : string) (a b : value) :
  str_join sep [a; b] = Raise TypeError.
Proof. reflexivity. Qed.

Lemma purchaser_registration_no_ok (idoklad_invoice registration_no : value) :
  purchaser_registration_no idoklad_invoice = Ok registration_no ->
  exists purchaser,
    idoklad_invoice.["Purchaser"] = Ok purchaser /\
    purchaser.["IdentificationNumber"] = Ok registration_no.
Proof.
  unfold purchaser_registration_no.
  destruct (idoklad_invoice.["Purchaser"]) as [p|]; [|discriminate].
  simpl. eauto.
Qed.

(** Runs the next statement of a function in the error monad when its
    outcome is among the hypotheses. *)
Ltac run_bind := erewrite bind_ok by eassumption.

(** No input makes [convert_invoice] return: when nothing before it has
    raised, the join of the bank account does. *)
Lemma convert_invoice_never_returns (idoklad_invoice fakturoid_subjects v : value) :
  convert_invoice idoklad_invoice fakturoid_subjects <> Ok v.
Proof.
  unfold convert_invoice, mbind, result_bind.
  repeat first
    [ discriminate
    | progress cbn [str_join]
    | match goal with
      | |- match ?m with _ => _ end <> _ => destruct m
      end ].
Qed.

(** The invoices whose subject is not found fail with [SubjectNotFound]. *)
Lemma convert_invoice_no_match
    (idoklad_invoice : value) (subjects : list value) (registration_no : value) :
  has_keys idoklad_invoice keys_before_subject = true ->
  purchaser_registration_no idoklad_invoice = Ok registration_no ->
  no_match subjects registration_no ->
  convert_invoice idoklad_invoice (VList subjects)
  = Raise (SubjectNotFound registration_no).
Proof.
  intros Hkeys (purchaser & Hp & Hr)%purchaser_registration_no_ok Hnone.
  apply find_fakturoid_subject_id_no_match in Hnone.
  split_keys Hkeys. unfold convert_invoice.
  repeat run_bind. rewrite Hnone. reflexivity.
Qed.

(** C3. In convert_invoice the join that builds the bank account receives
    the account number and the bank code as two separate arguments, so for
    every source invoice whose purchaser registration number matches a
    cached subject, convert_invoice fails with a TypeError when it
    constructs the bank account. *)
Theorem convert_invoice_bank_account_type_error
    (idoklad_invoice : value) (subjects : list value)
    (registration_no s address : value) :
  has_keys idoklad_invoice keys_before_subject = true ->
  purchaser_registration_no idoklad_invoice = Ok registration_no ->
  first_match subjects registration_no s ->
  has_key s "id" = true ->
  has_keys idoklad_invoice keys_before_bank_account = true ->
  idoklad_invoice.["MyCompanyDocumentAddress"] = Ok address ->
  has_keys address ["AccountNumber"; "BankNumberCode"] = true ->
  exists account_number bank_number_code,
    address.["AccountNumber"] = Ok account_number /\
    address.["BankNumberCode"] = Ok bank_number_code /\
    str_join "/" [account_number; bank_number_code] = Raise TypeError /\
    convert_invoice idoklad_invoice (VList subjects) = Raise TypeError.
Proof.
  intros Hk1 (purchaser & Hp & Hr)%purchaser_registration_no_ok Hfirst
         [id Hid]%has_key_true Hk2 Haddr Hk3.
  pose proof (find_fakturoid_subject_id_first_match _ _ _ _ Hfirst Hid) as Hfind.
  split_keys Hk1. split_keys Hk2. split_keys Hk3.
  match goal with
  | Ha : address.["AccountNumber"] = Ok ?a, Hb : address.["BankNumberCode"] = Ok ?b |- _ =>
      exists a, b; split; [exact Ha|]; split; [exact Hb|]
  end.
  split; [reflexivity|].
  unfold convert_invoice. repeat run_bind. reflexivity.
Qed.

Lemma convert_invoice_bank_account_type_error_witness :
  exists account_number bank_number_code,
    (VDict [("AccountNumber", VStr "123456789"); ("BankNumberCode", VStr "0800");
            ("Iban", VStr "CZ6508000000000123456789"); ("Swift", VStr "GIBACZPX")])
      .["AccountNumber"] = Ok account_number /\
    (VDict [("AccountNumber", VStr "123456789"); ("BankNumberCode", VStr "0800");
            ("Iban", VStr "CZ6508000000000123456789"); ("Swift", VStr "GIBACZPX")])
      .["BankNumberCode"] = Ok bank_number_code /\
    str_join "/" [account_number; bank_number_code] = Raise TypeError /\
    convert_invoice sample_invoice (VList sample_subjects) = Raise TypeError.
Proof.
  apply (convert_invoice_bank_account_type_error
           sample_invoice sample_subjects (VStr "27074358") (subject 22 "27074358")).
  - reflexivity.
  - reflexivity.
  - exists [subject 11 "11111111"], [subject 33 "27074358"].
    split; [reflexivity|]. split; [|reflexivity].
    constructor; [reflexivity|constructor].
  - reflexivity.
  - reflexivity.
  - reflexivity.
  - reflexivity.
Defined.

(** C1, at an invoice whose purchaser is the second and the third of three
    cached subjects: the lookup gives the identifier of the second subject,
    and [convert_invoice] raises a [TypeError] instead of producing a
    destination record that carries it. *)
Theorem convert_invoice_sample_raises :
  find_fakturoid_subject_id (VList sample_subjects) (VStr "27074358") = Ok (VInt 22) /\
  convert_invoice sample_invoice (VList sample_subjects) = Raise TypeError.
Proof. split; reflexivity. Qed.

Lemma SubjectNotFound_not_UnknownPaymentMethod (registration_no code : value) :
  SubjectNotFound registration_no <> UnknownPaymentMethod code.
Proof. unfold SubjectNotFound, UnknownPaymentMethod. intros H. discriminate H. Qed.

(** C10. In convert_invoice the subject lookup is evaluated before the
    payment-method translation: for every source invoice whose purchaser
    registration number matches no cached subject and whose payment-option
    code is not "B", convert_invoice fails with SubjectNotFound, not with
    UnknownPaymentMethod. *)
Theorem subject_lookup_before_payment_method
    (idoklad_invoice : value) (subjects : list value)
    (registration_no payment_option code : value) :
  has_keys idoklad_invoice keys_before_subject = true ->
  purchaser_registration_no idoklad_invoice = Ok registration_no ->
  no_match subjects registration_no ->
  idoklad_invoice.["PaymentOption"] = Ok payment_option ->
  payment_option.["Code"] = Ok code ->
  code <> VStr "B" ->
  make_fakturoid_payment_method code = Raise (UnknownPaymentMethod code) /\
  convert_invoice idoklad_invoice (VList subjects)
  = Raise (SubjectNotFound registration_no) /\
  convert_invoice idoklad_invoice (VList subjects)
  <> Raise (UnknownPaymentMethod code).
Proof.
  intros Hkeys Hregno Hnone _ _ Hcode.
  split; [apply make_fakturoid_payment_method_other, Hcode|].
  rewrite (convert_invoice_no_match _ _ _ Hkeys Hregno Hnone).
  split; [reflexivity|].
  intros H. apply (SubjectNotFound_not_UnknownPaymentMethod registration_no code).
  congruence.
Qed.

Lemma subject_lookup_before_payment_method_witness :
  make_fakturoid_payment_method (VStr "C") = Raise (UnknownPaymentMethod (VStr "C")) /\
  convert_invoice (invoice "20160002" "99999999" "C") (VList sample_subjects)
  = Raise (SubjectNotFound (VStr "99999999")) /\
  convert_invoice (invoice "20160002" "99999999" "C") (VList sample_subjects)
  <> Raise (UnknownPaymentMethod (VStr "C")).
Proof.
  apply (subject_lookup_before_payment_method
           (invoice "20160002" "99999999" "C") sample_subjects
           (VStr "99999999") (VDict [("Code", VStr "C")]) (VStr "C")).
  - reflexivity.
  - reflexivity.
  - repeat constructor.
  - reflexivity.
  - reflexivity.
  - discriminate.
Defined.

(** ** The conversion of the line items *)

Lemma is_rounding_item_skip (item code total : value) :
  item.["Code"] = Ok code ->
  item.["TotalPrice"] = Ok total ->
  (if py_eq code (VStr "ZaokPol")
   then item.["TotalPrice"] ≫= (fun total => Ok (py_eq total (VInt 0)))
   else Ok false)
  = Ok (is_rounding_item item).
Proof.
  intros Hc Ht. unfold is_rounding_item. rewrite Hc, Ht. simpl.
  destruct (py_eq code (VStr "ZaokPol")); reflexivity.
Qed.

(** The loop appends to the lines built so far the destination lines of
    the items it keeps. *)
Lemma convert_lines_loop_spec (items lines : list value) :
  Forall (fun item => has_keys item line_item_keys = true) items ->
  exists new_lines,
    convert_lines_loop items lines = Ok (lines ++ new_lines) /\
    lines_spec items new_lines.
Proof.
  intros Hitems. revert lines.
  induction Hitems as [|item rest Hitem _ IH]; intros lines.
  - exists []. split; [simpl; rewrite app_nil_r; reflexivity | constructor].
  - unfold line_item_keys in Hitem. split_keys Hitem.
    cbn [convert_lines_loop]. run_bind.
    erewrite is_rounding_item_skip by eassumption.
    unfold lines_spec. cbn [List.filter mbind result_bind].
    destruct (is_rounding_item item) eqn:Eround; cbn [negb].
    + exact (IH lines).
    + repeat run_bind.
      match goal with
      | |- context [convert_lines_loop rest (lines ++ [?line])] =>
          destruct (IH (lines ++ [line])) as (more & Hloop & Hspec);
          exists (line :: more)
      end.
      split.
      * rewrite Hloop, <- app_assoc. reflexivity.
      * constructor; [|exact Hspec]. unfold destination_line. eauto 10.
Qed.

(** C2. For every source invoice, convert_invoice_lines returns the source
    line items in their original order, each mapped to a destination item
    with name, quantity, unit price and VAT rate, except that a line item is
    dropped if and only if its code equals "ZaokPol" and its total price
    equals 0: a "ZaokPol" item with a nonzero total price is retained, and so
    is every item with a different code. *)
Theorem convert_invoice_lines_filters_rounding_items
    (idoklad_invoice : value) (items : list value) :
  idoklad_invoice.["IssuedInvoiceItems"] = Ok (VList items) ->
  Forall (fun item => has_keys item line_item_keys = true) items ->
  exists lines,
    convert_invoice_lines idoklad_invoice = Ok (VList lines) /\
    Forall2 destination_line
            (List.filter (fun item => negb (is_rounding_item item)) items) lines /\
    (forall item code total,
        item.["Code"] = Ok code -> item.["TotalPrice"] = Ok total ->
        is_rounding_item item = true <->
        code = VStr "ZaokPol" /\ py_eq total (VInt 0) = true).
Proof.
  intros Hitems Hkeys.
  destruct (convert_lines_loop_spec items [] Hkeys) as (lines & Hloop & Hspec).
  exists lines. split; [|split; [exact Hspec|]].
  - unfold convert_invoice_lines. run_bind. cbn [py_iter mbind result_bind].
    rewrite Hloop. reflexivity.
  - intros item code total Hc Ht. unfold is_rounding_item. rewrite Hc, Ht.
    rewrite andb_true_iff, py_eq_str. reflexivity.
Qed.

Lemma convert_invoice_lines_filters_rounding_items_witness :
  exists lines,
    convert_invoice_lines sample_invoice = Ok (VList lines) /\
    Forall2 destination_line
            (List.filter (fun item => negb (is_rounding_item item)) sample_items) lines /\
    (forall item code total,
        item.["Code"] = Ok code -> item.["TotalPrice"] = Ok total ->
        is_rounding_item item = true <->
        code = VStr "ZaokPol" /\ py_eq total (VInt 0) = true).
Proof.
  apply (convert_invoice_lines_filters_rounding_items sample_invoice sample_items).
  - reflexivity.
  - repeat constructor.
Defined.

(** The lines of the sample invoice: of the two "ZaokPol" items the one
    with total price 0.0 is dropped, and the free item with another code is
    kept. *)
Example convert_invoice_lines_sample :
  convert_invoice_lines sample_invoice
  = Ok (VList
          [VDict [("name", VStr "Consulting"); ("quantity", VInt 1);
                  ("unit_price", VInt 1000); ("vat_rate", VInt 21)];
           VDict [("name", VStr "Rounding"); ("quantity", VInt 1);
                  ("unit_price", VInt 1); ("vat_rate", VInt 21)];
           VDict [("name", VStr "Free sample"); ("quantity", VInt 1);
                  ("unit_price", VInt 0); ("vat_rate", VInt 21)]]).
Proof. reflexivity. Qed.

(** ** Computations on the world *)

Lemma run_bind {A B : Type} (m : io A) (f : A -> io B) (w : world) :
  run (m ≫= f) w
  = match run m w with
    | (Ok a, w') => run (f a) w'
    | (Raise e, w') => (Raise e, w')
    end.
Proof. reflexivity. Qed.

Lemma run_bind_ok {A B : Type} (m : io A) (f : A -> io B) (w w' : world) (a : A) :
  run m w = (Ok a, w') -> run (m ≫= f) w = run (f a) w'.
Proof. intros H. rewrite run_bind, H. reflexivity. Qed.

Lemma run_bind_raise {A B : Type} (m : io A) (f : A -> io B) (w w' : world) (e : exn) :
  run m w = (Raise e, w') -> run (m ≫= f) w = (Raise e, w').
Proof. intros H. rewrite run_bind, H. reflexivity. Qed.

Lemma requests_app (l1 l2 : list event) :
  requests (l1 ++ l2) = requests l1 ++ requests l2.
Proof.
  induction l1 as [|[objs|req|path data] l1 IH]; simpl; rewrite ?IH; reflexivity.
Qed.

Lemma sends_nothing {A : Type} (P : request -> Prop) (m : io A) :
  (forall w, requests (log (snd (run m w))) = requests (log w)) -> sends 0 P m.
Proof.
  intros H w. exists []. rewrite H, app_nil_r. repeat split; [constructor | simpl; lia].
Qed.

Lemma sends_weaken {A : Type} (n n' : nat) (P : request -> Prop) (m : io A) :
  (n <= n')%nat -> sends n P m -> sends n' P m.
Proof.
  intros Hle H w. destruct (H w) as (reqs & E & HP & Hlen).
  exists reqs. repeat split; [exact E | exact HP | lia].
Qed.

Lemma sends_lift {A : Type} (P : request -> Prop) (r : result A) : sends 0 P (lift r).
Proof. apply sends_nothing. reflexivity. Qed.

Lemma sends_ret {A : Type} (P : request -> Prop) (a : A) : sends 0 P (mret a).
Proof. apply sends_nothing. reflexivity. Qed.

Lemma sends_print (P : request -> Prop) (objs : list printed) : sends 0 P (print objs).
Proof.
  apply sends_nothing. intros w. simpl. rewrite requests_app. apply app_nil_r.
Qed.

Lemma sends_read_file (P : request -> Prop) (path : string) : sends 0 P (read_file path).
Proof.
  apply sends_nothing. intros w. simpl.
  destruct (fs w !! path) as [[data|]|]; reflexivity.
Qed.

Lemma sends_write_file (P : request -> Prop) (path : string) (data : list Byte.byte) :
  sends 0 P (write_file path data).
Proof.
  apply sends_nothing. intros w. simpl.
  destruct (fs w !! path) as [[old|]|]; simpl; rewrite ?requests_app; simpl;
    rewrite ?app_nil_r; reflexivity.
Qed.

Lemma sends_bind {A B : Type} (j k : nat) (P : request -> Prop)
    (m : io A) (f : A -> io B) :
  sends j P m -> (forall a, sends k P (f a)) -> sends (j + k) P (m ≫= f).
Proof.
  intros Hm Hf w. rewrite run_bind.
  destruct (Hm w) as (r1 & E1 & P1 & L1).
  destruct (run m w) as [[a|e] w']; simpl in E1.
  - destruct (Hf a w') as (r2 & E2 & P2 & L2).
    exists (r1 ++ r2). rewrite E2, E1, app_assoc, length_app, Forall_app.
    repeat split; [exact P1 | exact P2 | lia].
  - exists r1. simpl. repeat split; [exact E1 | exact P1 | lia].
Qed.

(** A statement that raises ends the computation. *)
Lemma sends_bind_raises {A B : Type} (P : request -> Prop) (r : result A) (f : A -> io B) :
  (forall a, r <> Ok a) -> sends 0 P (lift r ≫= f).
Proof.
  intros Hr. apply sends_nothing. intros w. rewrite run_bind. simpl.
  destruct r as [a|e]; [destruct (Hr a eq_refl) | reflexivity].
Qed.

Lemma sends_try_except {A : Type} (j k : nat) (P : request -> Prop)
    (body : io A) (handler : exn -> io A) :
  sends j P body -> (forall e, sends k P (handler e)) ->
  sends (j + k) P (try_except body handler).
Proof.
  intros Hb Hh w. simpl.
  destruct (Hb w) as (r1 & E1 & P1 & L1).
  destruct (run body w) as [[a|e] w']; simpl in E1.
  - exists r1. simpl. repeat split; [exact E1 | exact P1 | lia].
  - destruct (Hh e w') as (r2 & E2 & P2 & L2).
    exists (r1 ++ r2). rewrite E2, E1, app_assoc, length_app, Forall_app.
    repeat split; [exact P1 | exact P2 | lia].
Qed.

(** ** The script *)

Section ScriptFacts.

Variable pickle_dumps : value -> list Byte.byte.
Variable pickle_loads : list Byte.byte -> result value.
Variable json_loads : list Byte.byte -> result value.
Variable respond : list request -> request -> result response.

(** Closes the goals on computations that send nothing. *)
Ltac quiet :=
  repeat first
    [ apply sends_lift | apply sends_ret | apply sends_print
    | apply sends_read_file | apply sends_write_file
    | apply (sends_bind 0 0); [|intros ?] ].

Lemma sends_send (P : request -> Prop) (req : request) :
  P req -> sends 1 P (send respond req).
Proof.
  intros HP w. exists [req]. simpl. rewrite requests_app. simpl.
  repeat split; [repeat constructor; exact HP | lia].
Qed.

Lemma sends_get_subjects (fakturoid : FakturoidAPI) :
  sends 1 (eq (subjects_request fakturoid)) (get_subjects respond fakturoid).
Proof.
  unfold get_subjects. apply (sends_bind 1 0).
  - apply sends_send. reflexivity.
  - intros resp. destruct (status_code resp =? 200); quiet.
Qed.

Lemma sends_load_cache (P : request -> Prop) : sends 0 P (load_cache pickle_loads).
Proof.
  unfold load_cache, pickle_load. apply (sends_try_except 0 0).
  - quiet.
  - intros e. destruct e; quiet.
Qed.

Lemma sends_json_load (P : request -> Prop) (path : string) :
  sends 0 P (json_load json_loads path).
Proof. unfold json_load. quiet. Qed.

(** The body of the loop sends nothing: the conversion raises before
    [create_invoice] is called. *)
Lemma sends_process_invoice (P : request -> Prop) (fakturoid : FakturoidAPI)
    (fakturoid_subjects idoklad_invoice : value) :
  sends 0 P (process_invoice respond fakturoid fakturoid_subjects idoklad_invoice).
Proof.
  unfold process_invoice.
  apply (sends_bind 0 0); [apply sends_lift | intros number].
  apply (sends_bind 0 0); [apply sends_print | intros _].
  apply sends_bind_raises. intros v. apply convert_invoice_never_returns.
Qed.

Lemma sends_for_each (P : request -> Prop) (xs : list value) (body : value -> io unit) :
  (forall x, sends 0 P (body x)) -> sends 0 P (for_each xs body).
Proof.
  intros Hbody. induction xs as [|x rest IH]; simpl; [apply sends_ret|].
  apply (sends_bind 0 0); [apply Hbody | intros _; exact IH].
Qed.

Lemma sends_fetch_subjects (fakturoid : FakturoidAPI) (cache : value) :
  sends 1 (eq (subjects_request fakturoid))
        (fetch_subjects pickle_dumps respond fakturoid cache).
Proof.
  unfold fetch_subjects, pickle_dump. apply (sends_bind 0 1); [apply sends_lift|].
  intros present. destruct present; simpl.
  - apply (sends_weaken 0); [lia | apply sends_ret].
  - apply (sends_bind 0 1); [apply sends_print | intros _].
    apply (sends_bind 1 0); [apply sends_get_subjects | intros subjects].
    quiet.
Qed.

(** With the key in the cache the block does nothing at all. *)
Lemma fetch_subjects_hit (fakturoid : FakturoidAPI) (cache : value) (w : world) :
  py_contains cache "fakturoid_subjects" = Ok true ->
  run (fetch_subjects pickle_dumps respond fakturoid cache) w = (Ok cache, w).
Proof. intros H. unfold fetch_subjects. rewrite run_bind. simpl. rewrite H. reflexivity. Qed.

Lemma fetch_subjects_raise (fakturoid : FakturoidAPI) (cache : value) (w : world)
    (e : exn) :
  py_contains cache "fakturoid_subjects" = Raise e ->
  run (fetch_subjects pickle_dumps respond fakturoid cache) w = (Raise e, w).
Proof. intros H. unfold fetch_subjects. rewrite run_bind. simpl. rewrite H. reflexivity. Qed.

(** What follows the [fetch_subjects] block in [main] sends nothing. *)
Lemma sends_create_invoices (P : request -> Prop) (fakturoid : FakturoidAPI)
    (idoklad_invoices cache : value) :
  sends 0 P
    (fakturoid_subjects ← lift cache.["fakturoid_subjects"];
     data ← lift idoklad_invoices.["Data"];
     invoices ← lift (py_iter data);
     for_each invoices (process_invoice respond fakturoid fakturoid_subjects);;
     print [PVal (VStr "Done.")]).
Proof.
  quiet. apply sends_for_each. intros x. apply sends_process_invoice.
Qed.

Lemma sends_main (args : arguments) :
  sends 1
    (eq (subjects_request
           (FakturoidAPI_init (fakturoid_account_name args) (fakturoid_email args)
                              (fakturoid_api_key args))))
    (main pickle_dumps pickle_loads json_loads respond args).
Proof.
  unfold main. apply (sends_bind 0 1); [apply sends_load_cache | intros cache].
  cbv zeta. apply (sends_bind 0 1); [apply sends_json_load | intros idoklad_invoices].
  apply (sends_bind 1 0); [apply sends_fetch_subjects | intros cache'].
  apply sends_create_invoices.
Qed.

(** No run of the script posts an invoice. *)
Lemma main_never_posts (args : arguments) (w : world) :
  invoice_posts
    (log (snd (run (main pickle_dumps pickle_loads json_loads respond args) w)))
  = invoice_posts (log w).
Proof.
  destruct (sends_main args w) as (reqs & E & HP & _).
  unfold invoice_posts. rewrite E, List.filter_app. clear E.
  replace (List.filter is_post reqs) with (@nil request); [apply app_nil_r|].
  induction HP as [|req reqs <- _ IH]; [reflexivity | exact IH].
Qed.

(** The loop runs the records in order and stops at the first one that
    raises. *)
Lemma for_each_raise (before after : list value) (x : value)
    (body : value -> io unit) (w w1 w2 : world) (e : exn) :
  run (for_each before body) w = (Ok (), w1) ->
  run (body x) w1 = (Raise e, w2) ->
  run (for_each (before ++ x :: after) body) w = (Raise e, w2).
Proof.
  revert w. induction before as [|y rest IH]; intros w Hbefore Hx;
    cbn [app for_each] in *.
  - injection Hbefore as <-. apply run_bind_raise, Hx.
  - rewrite run_bind in Hbefore |- *. destruct (run (body y) w) as [[[]|e'] w'].
    + apply IH; assumption.
    + discriminate.
Qed.

(** C4. For every source invoice whose purchaser registration number
    matches no subject in the cached subject list, convert_invoice fails
    with SubjectNotFound carrying that registration number, and no remote
    invoice-creation call is attempted for that record. *)
Theorem subject_not_found_before_creation
    (fakturoid : FakturoidAPI) (idoklad_invoice : value) (subjects : list value)
    (registration_no : value) (w : world) :
  has_keys idoklad_invoice keys_before_subject = true ->
  purchaser_registration_no idoklad_invoice = Ok registration_no ->
  no_match subjects registration_no ->
  convert_invoice idoklad_invoice (VList subjects)
  = Raise (SubjectNotFound registration_no) /\
  exists number,
    idoklad_invoice.["DocumentNumber"] = Ok number /\
    run (process_invoice respond fakturoid (VList subjects) idoklad_invoice) w
    = (Raise (SubjectNotFound registration_no),
       emit (EvPrint [PVal (VStr "Processing iDoklad invoice"); PVal number]) w) /\
    requests (log (emit (EvPrint [PVal (VStr "Processing iDoklad invoice");
                                  PVal number]) w))
    = requests (log w).
Proof.
  intros Hkeys Hregno Hnone.
  pose proof (convert_invoice_no_match _ _ _ Hkeys Hregno Hnone) as Hconv.
  split; [exact Hconv|].
  apply has_keys_cons in Hkeys. destruct Hkeys as [[number Hnumber] _].
  exists number. split; [exact Hnumber|]. split.
  - unfold process_invoice. rewrite run_bind. simpl. rewrite Hnumber, Hconv.
    reflexivity.
  - simpl. rewrite requests_app. apply app_nil_r.
Qed.

End ScriptFacts.

Lemma subject_not_found_before_creation_witness :
  convert_invoice (invoice "20160002" "99999999" "B") (VList sample_subjects)
  = Raise (SubjectNotFound (VStr "99999999")) /\
  exists number,
    (invoice "20160002" "99999999" "B").["DocumentNumber"] = Ok number /\
    run (process_invoice sample_respond (FakturoidAPI_init "acme" "a@b.c" "key")
                         (VList sample_subjects) (invoice "20160002" "99999999" "B"))
        empty_world
    = (Raise (SubjectNotFound (VStr "99999999")),
       emit (EvPrint [PVal (VStr "Processing iDoklad invoice"); PVal number]) empty_world) /\
    requests (log (emit (EvPrint [PVal (VStr "Processing iDoklad invoice");
                                  PVal number]) empty_world))
    = requests (log empty_world).
Proof.
  apply (subject_not_found_before_creation sample_respond).
  - reflexivity.
  - reflexivity.
  - repeat constructor.
Defined.

(** C6, at an input of two invoices, the first for a cached subject and the
    second for an unknown one, with the subjects in the cache file and a
    service that accepts every request: the run stops at the first record
    with a [TypeError]; it has printed two lines and has sent no request, so
    no invoice is created and the second record is never reached. *)
Theorem sample_run_stops_at_first_invoice :
  run (main sample_pickle_dumps sample_pickle_loads sample_json_loads sample_respond
            sample_args) sample_world
  = (Raise TypeError,
     {| fs := fs sample_world;
        log := [loading_cache;
                EvPrint [PVal (VStr "Processing iDoklad invoice");
                         PVal (VStr "20160001")]] |}) /\
  invoice_posts
    (log (snd (run (main sample_pickle_dumps sample_pickle_loads sample_json_loads
                         sample_respond sample_args) sample_world)))
  = [].
Proof. split; vm_compute; reflexivity. Qed.

(** ** The cache file *)

Section CacheFacts.

Variable pickle_dumps : value -> list Byte.byte.
Variable pickle_loads : list Byte.byte -> result value.

(** The [try] block with the cache path unreadable: [open] raises an
    [IOError], which the first handler turns into an empty table. *)
Lemma load_cache_unreadable (w : world) :
  fs w !! CACHE_FILE = None \/ fs w !! CACHE_FILE = Some Directory ->
  run (load_cache pickle_loads) w = (Ok (VDict []), emit loading_cache w).
Proof.
  intros H. unfold load_cache, pickle_load, loading_cache. simpl.
  destruct H as [-> | ->]; reflexivity.
Qed.

(** The [try] block with a cache file: what [pickle.load] does decides. *)
Lemma load_cache_file (w : world) (data : list Byte.byte) :
  fs w !! CACHE_FILE = Some (File data) ->
  run (load_cache pickle_loads) w
  = match pickle_loads data with
    | Ok cache => (Ok cache, emit loading_cache w)
    | Raise IOError => (Ok (VDict []), emit loading_cache w)
    | Raise e => (Ok (VDict []), emit (cache_warning e) (emit loading_cache w))
    end.
Proof.
  intros H. unfold load_cache, pickle_load, loading_cache. simpl. rewrite H.
  destruct (pickle_loads data) as [cache|[]]; reflexivity.
Qed.

(** C9, as the script has it. Cache loading never aborts the run. If the
    cache file cannot be opened (it is absent, or the path is a directory),
    or reading it raises an IOError, the load yields an empty table and
    prints no warning; if loading fails with any other exception, the load
    yields an empty table and prints a warning; in both cases the run goes
    on with the empty table, the files untouched. *)
Theorem load_cache_never_aborts (w : world) :
  (exists cache w',
      run (load_cache pickle_loads) w = (Ok cache, w') /\ fs w' = fs w) /\
  (fs w !! CACHE_FILE = None \/ fs w !! CACHE_FILE = Some Directory ->
   run (load_cache pickle_loads) w = (Ok (VDict []), emit loading_cache w)) /\
  (forall data,
      fs w !! CACHE_FILE = Some (File data) ->
      pickle_loads data = Raise IOError ->
      run (load_cache pickle_loads) w = (Ok (VDict []), emit loading_cache w)) /\
  (forall data e,
      fs w !! CACHE_FILE = Some (File data) ->
      pickle_loads data = Raise e ->
      e <> IOError ->
      run (load_cache pickle_loads) w
      = (Ok (VDict []), emit (cache_warning e) (emit loading_cache w))).
Proof.
  split; [|split; [apply load_cache_unreadable|split]].
  - destruct (fs w !! CACHE_FILE) as [[data|]|] eqn:E.
    + rewrite (load_cache_file w data E).
      destruct (pickle_loads data) as [cache|[]]; eauto.
    + rewrite load_cache_unreadable by (right; exact E). eauto.
    + rewrite load_cache_unreadable by (left; exact E). eauto.
  - intros data E Hload. rewrite (load_cache_file w data E), Hload. reflexivity.
  - intros data e E Hload Hne. rewrite (load_cache_file w data E), Hload.
    destruct e; try reflexivity. contradiction.
Qed.

(** C8. For every cache table, loading the cache file after saving that
    table recovers the same table: [save] replaces the file at the cache
    path by the pickled table, and a later [load], in this run or in the
    next one, reads that file back, with no warning. [pickle] is taken by
    its contract on the table saved. *)
Theorem cache_round_trip (table : value) (w : world) :
  pickle_loads (pickle_dumps table) = Ok table ->
  fs w !! CACHE_FILE <> Some Directory ->
  exists w1,
    run (pickle_dump pickle_dumps table CACHE_FILE) w = (Ok (), w1) /\
    fs w1 !! CACHE_FILE = Some (File (pickle_dumps table)) /\
    forall w2,
      fs w2 = fs w1 ->
      run (load_cache pickle_loads) w2 = (Ok table, emit loading_cache w2).
Proof.
  intros Hpickle Hdir.
  exists {| fs := <[CACHE_FILE := File (pickle_dumps table)]> (fs w);
            log := log w ++ [EvWrite CACHE_FILE (pickle_dumps table)] |}.
  split; [|split].
  - unfold pickle_dump. simpl.
    destruct (fs w !! CACHE_FILE) as [[data|]|]; [reflexivity | | reflexivity].
    contradiction Hdir. reflexivity.
  - simpl. apply lookup_insert_eq.
  - intros w2 Hfs. simpl in Hfs.
    rewrite (load_cache_file w2 (pickle_dumps table)).
    + rewrite Hpickle. reflexivity.
    + rewrite Hfs. apply lookup_insert_eq.
Qed.

End CacheFacts.

Lemma load_cache_never_aborts_witness :
  run (load_cache sample_pickle_loads) empty_world
  = (Ok (VDict []), emit loading_cache empty_world) /\
  run (load_cache sample_pickle_loads) directory_world
  = (Ok (VDict []), emit loading_cache directory_world) /\
  run (load_cache sample_pickle_loads) corrupt_world
  = (Ok (VDict []),
     emit (cache_warning (OtherError "UnpicklingError"))
          (emit loading_cache corrupt_world)).
Proof.
  split; [|split].
  - apply (proj1 (proj2 (load_cache_never_aborts sample_pickle_loads empty_world))).
    left. reflexivity.
  - apply (proj1 (proj2 (load_cache_never_aborts sample_pickle_loads directory_world))).
    right. reflexivity.
  - apply (proj2 (proj2 (proj2 (load_cache_never_aborts sample_pickle_loads corrupt_world)))
             [Byte.x00]).
    + reflexivity.
    + reflexivity.
    + discriminate.
Defined.

(** C9 as stated fails where the cache path is a directory: the file is
    not absent and loading it fails, yet the load prints no warning. *)
Lemma load_cache_directory_no_warning :
  ~ warns_unless_absent sample_pickle_loads directory_world.
Proof.
  unfold warns_unless_absent. intros H. apply H.
  - discriminate.
  - exists IOError, directory_world. reflexivity.
  - reflexivity.
Qed.

Lemma cache_round_trip_witness :
  exists w1,
    run (pickle_dump sample_pickle_dumps sample_cache CACHE_FILE) empty_world = (Ok (), w1) /\
    fs w1 !! CACHE_FILE = Some (File (sample_pickle_dumps sample_cache)) /\
    forall w2,
      fs w2 = fs w1 ->
      run (load_cache sample_pickle_loads) w2 = (Ok sample_cache, emit loading_cache w2).
Proof.
  apply (cache_round_trip sample_pickle_dumps sample_pickle_loads sample_cache empty_world).
  - reflexivity.
  - discriminate.
Defined.

(** ** The subjects in the cache *)

Section SubjectsFacts.

Variable pickle_dumps : value -> list Byte.byte.
Variable pickle_loads : list Byte.byte -> result value.
Variable json_loads : list Byte.byte -> result value.
Variable respond : list request -> request -> result response.

Lemma sends_fetch_subjects_unless_absent (P : request -> Prop)
    (fakturoid : FakturoidAPI) (cache : value) :
  py_contains cache "fakturoid_subjects" <> Ok false ->
  sends 0 P (fetch_subjects pickle_dumps respond fakturoid cache).
Proof.
  intros H. apply sends_nothing. intros w.
  destruct (py_contains cache "fakturoid_subjects") as [[|]|e] eqn:E.
  - rewrite (fetch_subjects_hit _ _ _ _ _ E). reflexivity.
  - contradiction H. reflexivity.
  - rewrite (fetch_subjects_raise _ _ _ _ _ _ E). reflexivity.
Qed.

(** A run whose loaded cache has the key, or cannot be asked for it, sends
    no request. *)
Lemma main_sends_nothing_unless_absent (args : arguments) (w w1 : world) (cache : value) :
  run (load_cache pickle_loads) w = (Ok cache, w1) ->
  py_contains cache "fakturoid_subjects" <> Ok false ->
  requests (log (snd (run (main pickle_dumps pickle_loads json_loads respond args) w)))
  = requests (log w).
Proof.
  intros Hload Hkey. unfold main. rewrite (run_bind_ok _ _ _ _ _ Hload). cbv zeta.
  match goal with
  | |- requests (log (snd (run ?m w1))) = _ =>
      assert (sends 0 (fun _ => True) m) as Hrest
  end.
  { apply (sends_bind 0 0); [apply sends_json_load | intros idoklad_invoices].
    apply (sends_bind 0 0);
      [apply sends_fetch_subjects_unless_absent, Hkey | intros cache'].
    apply sends_create_invoices. }
  destruct (Hrest w1) as (reqs & E & _ & Hlen).
  destruct reqs; [|simpl in Hlen; lia]. rewrite E, app_nil_r.
  destruct (sends_load_cache pickle_loads (fun _ => True) w) as (reqs & E' & _ & Hlen').
  rewrite Hload in E'. simpl in E'.
  destruct reqs; [|simpl in Hlen'; lia]. rewrite E', app_nil_r. reflexivity.
Qed.

(** The block on a cache without the key, when the service answers 200
    with a JSON body and the cache path is not a directory: one message, one
    request, then the write of the populated cache. *)
Lemma fetch_subjects_miss (fakturoid : FakturoidAPI) (cache cache' subjects : value)
    (resp : response) (w : world) :
  py_contains cache "fakturoid_subjects" = Ok false ->
  respond (requests (log w)) (subjects_request fakturoid) = Ok resp ->
  status_code resp = 200 ->
  json resp = Ok subjects ->
  setitem cache "fakturoid_subjects" subjects = Ok cache' ->
  fs w !! CACHE_FILE <> Some Directory ->
  run (fetch_subjects pickle_dumps respond fakturoid cache) w
  = (Ok cache',
     {| fs := <[CACHE_FILE := File (pickle_dumps cache')]> (fs w);
        log := log w ++ [EvPrint [PVal (VStr "Loading subjects from Fakturoid API")];
                         EvRequest (subjects_request fakturoid);
                         EvWrite CACHE_FILE (pickle_dumps cache')] |}).
Proof.
  intros Hkey Hresp Hstatus Hjson Hset Hdir.
  unfold fetch_subjects, get_subjects, _api_get, pickle_dump.
  fold (subjects_request fakturoid).
  rewrite run_bind. cbn [run lift]. rewrite Hkey. cbn [negb].
  rewrite run_bind. cbn [run print].
  rewrite run_bind, run_bind. cbn [run send emit log fs].
  rewrite requests_app. cbn [requests]. rewrite app_nil_r, Hresp, Hstatus.
  cbn [Z.eqb Pos.eqb run lift]. rewrite Hjson.
  rewrite run_bind. cbn [run lift]. rewrite Hset.
  rewrite run_bind. cbn [run write_file fs log emit].
  destruct (fs w !! CACHE_FILE) as [[data|]|];
    [ | contradiction Hdir; reflexivity | ];
    cbn [run mret io_ret]; rewrite <- !app_assoc; reflexivity.
Qed.

(** C7. Within one run, if the loaded cache already contains the subjects
    key, the driver issues no remote subjects fetch; the remote
    list-subjects call is made at most once per run, only when the key is
    absent, and the cache is persisted immediately after being populated. *)
Theorem subjects_fetched_at_most_once (args : arguments) (w w1 : world) (cache : value) :
  run (load_cache pickle_loads) w = (Ok cache, w1) ->
  let fakturoid :=
    FakturoidAPI_init (fakturoid_account_name args) (fakturoid_email args)
                      (fakturoid_api_key args) in
  let w' := snd (run (main pickle_dumps pickle_loads json_loads respond args) w) in
  (py_contains cache "fakturoid_subjects" = Ok true ->
   subject_fetches (log w') = subject_fetches (log w)) /\
  (length (subject_fetches (log w')) <= length (subject_fetches (log w)) + 1)%nat /\
  (subject_fetches (log w') <> subject_fetches (log w) ->
   py_contains cache "fakturoid_subjects" = Ok false) /\
  (forall (c c' subjects : value) (resp : response) (w0 : world),
      py_contains c "fakturoid_subjects" = Ok false ->
      respond (requests (log w0)) (subjects_request fakturoid) = Ok resp ->
      status_code resp = 200 ->
      json resp = Ok subjects ->
      setitem c "fakturoid_subjects" subjects = Ok c' ->
      fs w0 !! CACHE_FILE <> Some Directory ->
      run (fetch_subjects pickle_dumps respond fakturoid c) w0
      = (Ok c',
         {| fs := <[CACHE_FILE := File (pickle_dumps c')]> (fs w0);
            log := log w0
                   ++ [EvPrint [PVal (VStr "Loading subjects from Fakturoid API")];
                       EvRequest (subjects_request fakturoid);
                       EvWrite CACHE_FILE (pickle_dumps c')] |})).
Proof.
  intros Hload fakturoid w'. subst w'.
  split; [|split; [|split]].
  - intros Hkey. unfold subject_fetches.
    rewrite (main_sends_nothing_unless_absent args w w1 cache Hload); [reflexivity|].
    rewrite Hkey. discriminate.
  - destruct (sends_main pickle_dumps pickle_loads json_loads respond args w)
      as (reqs & E & _ & Hlen).
    unfold subject_fetches. rewrite E, List.filter_app, length_app.
    pose proof (List.filter_length_le is_get reqs). lia.
  - intros Hfetch.
    destruct (py_contains cache "fakturoid_subjects") as [[|]|e] eqn:E;
      [ | reflexivity | ];
      contradiction Hfetch; unfold subject_fetches;
      rewrite (main_sends_nothing_unless_absent args w w1 cache Hload);
      try reflexivity; rewrite E; discriminate.
  - intros c c' subjects resp w0. apply fetch_subjects_miss.
Qed.

End SubjectsFacts.

Lemma subjects_fetched_at_most_once_witness :
  subject_fetches
    (log (snd (run (main sample_pickle_dumps sample_pickle_loads sample_json_loads
                         sample_respond sample_args) sample_world)))
  = subject_fetches (log sample_world) /\
  run (fetch_subjects sample_pickle_dumps sample_respond
                      (FakturoidAPI_init "acme" "billing@example.com" "secret")
                      (VDict []))
      empty_world
  = (Ok sample_cache,
     {| fs := <[CACHE_FILE := File (sample_pickle_dumps sample_cache)]> (fs empty_world);
        log := log empty_world
               ++ [EvPrint [PVal (VStr "Loading subjects from Fakturoid API")];
                   EvRequest (subjects_request
                                (FakturoidAPI_init "acme" "billing@example.com" "secret"));
                   EvWrite CACHE_FILE (sample_pickle_dumps sample_cache)] |}).
Proof.
  destruct (subjects_fetched_at_most_once
              sample_pickle_dumps sample_pickle_loads sample_json_loads sample_respond
              sample_args sample_world (emit loading_cache sample_world) sample_cache)
    as (Hhit & _ & _ & Hmiss).
  - reflexivity.
  - split.
    + apply Hhit. reflexivity.
    + apply (Hmiss (VDict []) sample_cache (VList sample_subjects)
                   {| status_code := 200; text := "OK";
                      json := Ok (VList sample_subjects) |}).
      * reflexivity.
      * reflexivity.
      * reflexivity.
      * reflexivity.
      * reflexivity.
      * discriminate.
Defined.

(** A first run, with no cache file: the subjects are fetched once and the
    cache is written before the first invoice is looked at; the first
    invoice then stops the run. *)
Example cold_run :
  run (main sample_pickle_dumps sample_pickle_loads sample_json_loads sample_respond
            sample_args) cold_world
  = (Raise TypeError,
     {| fs := <[CACHE_FILE := File sample_cache_bytes]> (fs cold_world);
        log := [loading_cache;
                EvPrint [PVal (VStr "Loading subjects from Fakturoid API")];
                EvRequest (subjects_request
                             (FakturoidAPI_init "acme" "billing@example.com" "secret"));
                EvWrite CACHE_FILE sample_cache_bytes;
                EvPrint [PVal (VStr "Processing iDoklad invoice");
                         PVal (VStr "20160001")]] |}).
Proof. vm_compute. reflexivity. Qed.

(** * Further properties of the script *)

(** ** The subject lookup *)

(** A subscript raises a [KeyError] with its key, or a [TypeError]. *)
Lemma subscript_raise (v : value) (k : string) (e : exn) :
  v.[k] = Raise e -> e = KeyError k \/ e = TypeError.
Proof.
  unfold subscript. destruct v; try (intros [= <-]; right; reflexivity).
  destruct (dict_get items k); [discriminate | intros [= <-]; left; reflexivity].
Qed.

Lemma subscript_not_exception (v : value) (k : string) (args : list value) :
  v.[k] <> Raise (Exception args).
Proof. intros [H | H]%subscript_raise; discriminate H. Qed.

(** X3. When the lookup returns an identifier, it is the [id] of the first
    subject, in list order, whose registration number equals the one looked
    up. *)
Theorem find_fakturoid_subject_id_sound
    (subjects : list value) (registration_no id : value) :
  find_fakturoid_subject_id (VList subjects) registration_no = Ok id ->
  exists s, first_match subjects registration_no s /\ s.["id"] = Ok id.
Proof.
  unfold find_fakturoid_subject_id. cbn [py_iter mbind result_bind].
  induction subjects as [|x rest IH]; cbn [find_subject_loop].
  - discriminate.
  - destruct (x.["registration_no"]) as [r|e] eqn:Er; [|discriminate].
    cbn [mbind result_bind]. destruct (py_eq r registration_no) eqn:Eeq.
    + intros Hid. exists x. split; [|exact Hid].
      exists [], rest. split; [reflexivity|]. split; [constructor|].
      unfold subject_matches. rewrite Er, Eeq. reflexivity.
    + intros H. destruct (IH H) as (s & (before & after & -> & Hbefore & Hs) & Hid).
      exists s. split; [|exact Hid].
      exists (x :: before), after. split; [reflexivity|]. split; [|exact Hs].
      constructor; [|exact Hbefore].
      unfold subject_matches. rewrite Er, Eeq. reflexivity.
Qed.

Lemma find_fakturoid_subject_id_sound_witness :
  exists s,
    first_match sample_subjects (VStr "27074358") s /\ s.["id"] = Ok (VInt 22).
Proof.
  apply (find_fakturoid_subject_id_sound sample_subjects (VStr "27074358") (VInt 22)).
  reflexivity.
Defined.

(** X4. The lookup raises SubjectNotFound exactly when every subject of the
    list has a registration number and none of them equals the one looked
    up. *)
Theorem subject_not_found_iff_no_match (subjects : list value) (registration_no : value) :
  find_fakturoid_subject_id (VList subjects) registration_no
  = Raise (SubjectNotFound registration_no)
  <-> no_match subjects registration_no.
Proof.
  split; [|apply find_fakturoid_subject_id_no_match].
  unfold find_fakturoid_subject_id, no_match. cbn [py_iter mbind result_bind].
  induction subjects as [|x rest IH]; cbn [find_subject_loop].
  - constructor.
  - destruct (x.["registration_no"]) as [r|e] eqn:Er.
    + cbn [mbind result_bind]. destruct (py_eq r registration_no) eqn:Eeq.
      * intros H. destruct (subscript_not_exception _ _ _ H).
      * intros H. constructor; [|exact (IH H)].
        unfold subject_matches. rewrite Er, Eeq. reflexivity.
    + cbn [mbind result_bind]. intros [= ->].
      destruct (subscript_not_exception _ _ _ Er).
Qed.

Lemma subject_not_found_iff_no_match_witness :
  no_match sample_subjects (VStr "99999999").
Proof.
  apply (proj1 (subject_not_found_iff_no_match sample_subjects (VStr "99999999"))).
  reflexivity.
Defined.

(** X5. The lookup stops at the first subject it cannot read: when the
    subjects before it do not match and its registration number cannot be
    read, the lookup raises that error, whatever follows in the list. *)
Theorem find_fakturoid_subject_id_unreadable_subject
    (before after : list value) (s registration_no : value) (e : exn) :
  no_match before registration_no ->
  s.["registration_no"] = Raise e ->
  find_fakturoid_subject_id (VList (before ++ s :: after)) registration_no = Raise e.
Proof.
  intros Hbefore Hs. unfold find_fakturoid_subject_id. cbn [py_iter mbind result_bind].
  induction Hbefore as [|x rest Hx _ IH]; cbn [app find_subject_loop].
  - rewrite Hs. reflexivity.
  - unfold subject_matches in Hx.
    destruct (x.["registration_no"]) as [r|]; [|discriminate].
    injection Hx as Hx. cbn [mbind result_bind]. rewrite Hx. exact IH.
Qed.

Lemma find_fakturoid_subject_id_unreadable_subject_witness :
  find_fakturoid_subject_id
    (VList ([subject 11 "11111111"] ++ VDict [("id", VInt 5)] :: [subject 22 "27074358"]))
    (VStr "27074358")
  = Raise (KeyError "registration_no").
Proof.
  apply (find_fakturoid_subject_id_unreadable_subject
           [subject 11 "11111111"] [subject 22 "27074358"]).
  - repeat constructor.
  - reflexivity.
Defined.

(** ** The errors of the conversion *)

Lemma find_subject_loop_raise (subjects : list value) (registration_no : value) (e : exn) :
  find_subject_loop subjects registration_no = Raise e ->
  (exists key, e = KeyError key) \/ e = TypeError \/ e = SubjectNotFound registration_no.
Proof.
  induction subjects as [|x rest IH]; cbn [find_subject_loop].
  - intros [= <-]. right. right. reflexivity.
  - destruct (x.["registration_no"]) as [r|e'] eqn:Er; cbn [mbind result_bind].
    + destruct (py_eq r registration_no); [|exact IH].
      intros [-> | ->]%subscript_raise; eauto.
    + intros [= <-]. apply subscript_raise in Er. destruct Er as [-> | ->]; eauto.
Qed.

Lemma find_fakturoid_subject_id_raise (fakturoid_subjects registration_no : value) (e : exn) :
  find_fakturoid_subject_id fakturoid_subjects registration_no = Raise e ->
  (exists key, e = KeyError key) \/ e = TypeError \/ e = SubjectNotFound registration_no.
Proof.
  unfold find_fakturoid_subject_id.
  destruct (py_iter fakturoid_subjects) as [subjects|e'] eqn:Eiter;
    cbn [mbind result_bind].
  - apply find_subject_loop_raise.
  - intros [= <-]. destruct fakturoid_subjects; try discriminate;
      injection Eiter as <-; eauto.
Qed.

(** Every exception of [convert_invoice] is a [KeyError], a [TypeError] or
    the SubjectNotFound of the purchaser. *)
Lemma convert_invoice_raise (idoklad_invoice fakturoid_subjects : value) (e : exn) :
  convert_invoice idoklad_invoice fakturoid_subjects = Raise e ->
  conversion_error idoklad_invoice e.
Proof.
  unfold convert_invoice, conversion_error, mbind, result_bind. intros H.
  repeat
    match type of H with
    | match str_join _ _ with _ => _ end = _ => cbn [str_join] in H
    | match ?m with _ => _ end = _ =>
        let E := fresh "E" in
        destruct m eqn:E;
        [ | injection H as <-;
            first
              [ apply subscript_raise in E; destruct E as [-> | ->]; eauto
              | apply find_fakturoid_subject_id_raise in E;
                destruct E as [[key ->] | [-> | ->]]; eauto;
                right; right; eexists; split; [|reflexivity];
                unfold purchaser_registration_no;
                run_bind; eassumption ] ]
    end.
  injection H as <-. eauto.
Qed.

(** X6. [convert_invoice] raises on every input, and what it raises is a
    [KeyError], a [TypeError] or the SubjectNotFound of the invoice's
    purchaser. *)
Theorem convert_invoice_always_raises (idoklad_invoice fakturoid_subjects : value) :
  exists e,
    convert_invoice idoklad_invoice fakturoid_subjects = Raise e /\
    conversion_error idoklad_invoice e.
Proof.
  destruct (convert_invoice idoklad_invoice fakturoid_subjects) as [v|e] eqn:E.
  - destruct (convert_invoice_never_returns _ _ _ E).
  - exists e. split; [reflexivity | exact (convert_invoice_raise _ _ _ E)].
Qed.

(** X7. [convert_invoice] never raises UnknownPaymentMethod, whatever the
    payment code of the invoice: the bank account is built, and the call
    ends, before the payment method is translated. *)
Theorem convert_invoice_never_unknown_payment_method
    (idoklad_invoice fakturoid_subjects code : value) :
  convert_invoice idoklad_invoice fakturoid_subjects <> Raise (UnknownPaymentMethod code).
Proof.
  intros H. apply convert_invoice_raise in H.
  destruct H as [[key H] | [H | (r & _ & H)]]; discriminate H.
Qed.

(** ** The line items *)

(** The loop only appends: what it returns is the lines it was given
    followed by one destination line for some of the items. *)
Lemma convert_lines_loop_shape (items lines out : list value) :
  convert_lines_loop items lines = Ok out ->
  exists new_lines,
    out = lines ++ new_lines /\
    Forall is_destination_line new_lines /\
    (length new_lines <= length items)%nat.
Proof.
  revert lines. induction items as [|item rest IH]; intros lines;
    cbn [convert_lines_loop].
  - intros [= <-]. exists []. rewrite app_nil_r. repeat split; [constructor | simpl; lia].
  - unfold mbind, result_bind.
    destruct (item.["Code"]) as [code|]; [|discriminate].
    destruct (if py_eq code (VStr "ZaokPol")
              then match item.["TotalPrice"] with
                   | Ok total => Ok (py_eq total (VInt 0))
                   | Raise e => Raise e
                   end
              else Ok false) as [[|]|]; [| |discriminate].
    + intros H. destruct (IH _ H) as (new_lines & -> & Hshape & Hlen).
      exists new_lines. repeat split; [exact Hshape | simpl; lia].
    + destruct (item.["Name"]) as [name|]; [|discriminate].
      destruct (item.["Amount"]) as [quantity|]; [|discriminate].
      destruct (item.["UnitPrice"]) as [unit_price|]; [|discriminate].
      destruct (item.["VatRate"]) as [vat_rate|]; [|discriminate].
      intros H. destruct (IH _ H) as (new_lines & -> & Hshape & Hlen).
      eexists (_ :: new_lines). rewrite <- app_assoc.
      repeat split; [|simpl; lia].
      constructor; [|exact Hshape]. unfold is_destination_line. eauto 6.
Qed.

(** X8. Whatever the invoice, when [convert_invoice_lines] returns, it
    returns a list of dicts with exactly the keys name, quantity,
    unit_price and vat_rate, in that order, and with no more lines than the
    invoice has items. *)
Theorem convert_invoice_lines_shape (idoklad_invoice result_v : value) :
  convert_invoice_lines idoklad_invoice = Ok result_v ->
  exists items lines,
    idoklad_invoice.["IssuedInvoiceItems"] ≫= py_iter = Ok items /\
    result_v = VList lines /\
    Forall is_destination_line lines /\
    (length lines <= length items)%nat.
Proof.
  unfold convert_invoice_lines, mbind, result_bind.
  destruct (idoklad_invoice.["IssuedInvoiceItems"]) as [items_v|]; [|discriminate].
  destruct (py_iter items_v) as [items|]; [|discriminate].
  destruct (convert_lines_loop items []) as [lines|] eqn:Eloop; [|discriminate].
  intros [= <-]. exists items, lines.
  destruct (convert_lines_loop_shape _ _ _ Eloop) as (new_lines & -> & Hshape & Hlen).
  repeat split; assumption.
Qed.

Lemma convert_invoice_lines_shape_witness :
  exists items lines,
    sample_invoice.["IssuedInvoiceItems"] ≫= py_iter = Ok items /\
    VList [VDict [("name", VStr "Consulting"); ("quantity", VInt 1);
                  ("unit_price", VInt 1000); ("vat_rate", VInt 21)];
           VDict [("name", VStr "Rounding"); ("quantity", VInt 1);
                  ("unit_price", VInt 1); ("vat_rate", VInt 21)];
           VDict [("name", VStr "Free sample"); ("quantity", VInt 1);
                  ("unit_price", VInt 0); ("vat_rate", VInt 21)]]
    = VList lines /\
    Forall is_destination_line lines /\
    (length lines <= length items)%nat.
Proof.
  apply (convert_invoice_lines_shape sample_invoice). reflexivity.
Defined.

(** The loop, one turn at a time. *)
Lemma convert_lines_loop_cons (item : value) (rest lines : list value) :
  convert_lines_loop (item :: rest) lines
  = line ← convert_line_item item; convert_lines_loop rest (append_line lines line).
Proof.
  cbn [convert_lines_loop]. unfold convert_line_item, mbind, result_bind.
  assert (Hkept :
    match item.["Name"] with
    | Ok name =>
        match item.["Amount"] with
        | Ok quantity =>
            match item.["UnitPrice"] with
            | Ok unit_price =>
                match item.["VatRate"] with
                | Ok vat_rate =>
                    convert_lines_loop rest
                      (lines ++ [VDict [("name", name); ("quantity", quantity);
                                        ("unit_price", unit_price);
                                        ("vat_rate", vat_rate)]])
                | Raise e => Raise e
                end
            | Raise e => Raise e
            end
        | Raise e => Raise e
        end
    | Raise e => Raise e
    end
    = match
        match item.["Name"] with
        | Ok name =>
            match item.["Amount"] with
            | Ok quantity =>
                match item.["UnitPrice"] with
                | Ok unit_price =>
                    match item.["VatRate"] with
                    | Ok vat_rate =>
                        Ok (Some (VDict [("name", name); ("quantity", quantity);
                                         ("unit_price", unit_price);
                                         ("vat_rate", vat_rate)]))
                    | Raise e => Raise e
                    end
                | Raise e => Raise e
                end
            | Raise e => Raise e
            end
        | Raise e => Raise e
        end
      with
      | Ok line => convert_lines_loop rest (append_line lines line)
      | Raise e => Raise e
      end).
  { destruct (item.["Name"]); [|reflexivity].
    destruct (item.["Amount"]); [|reflexivity].
    destruct (item.["UnitPrice"]); [|reflexivity].
    destruct (item.["VatRate"]); reflexivity. }
  destruct (item.["Code"]) as [code|]; [|reflexivity].
  destruct (py_eq code (VStr "ZaokPol")); [|exact Hkept].
  destruct (item.["TotalPrice"]) as [total|]; [|reflexivity].
  destruct (py_eq total (VInt 0)); [reflexivity | exact Hkept].
Qed.

(** The loop on a list with the lines built so far is the loop on the
    list from nothing, put after those lines. *)
Lemma convert_lines_loop_from (items lines : list value) :
  convert_lines_loop items lines
  = new_lines ← convert_lines_loop items []; Ok (lines ++ new_lines).
Proof.
  revert lines. induction items as [|item rest IH]; intros lines.
  - cbn [convert_lines_loop mbind result_bind]. rewrite app_nil_r. reflexivity.
  - rewrite !convert_lines_loop_cons.
    destruct (convert_line_item item) as [[line|]|e]; cbn [mbind result_bind append_line].
    + rewrite IH, (IH ([] ++ [line])). unfold mbind, result_bind.
      destruct (convert_lines_loop rest []) as [more|]; [|reflexivity].
      rewrite <- !app_assoc. reflexivity.
    + apply IH.
    + reflexivity.
Qed.

(** The loop on two lists in a row is the loop on the first, then the loop
    on the second from what the first has built. *)
Lemma convert_lines_loop_app (xs ys lines : list value) :
  convert_lines_loop (xs ++ ys) lines
  = built ← convert_lines_loop xs lines; convert_lines_loop ys built.
Proof.
  revert lines. induction xs as [|item rest IH]; intros lines.
  - reflexivity.
  - cbn [app]. rewrite !convert_lines_loop_cons.
    destruct (convert_line_item item) as [line|e]; cbn [mbind result_bind].
    + apply IH.
    + reflexivity.
Qed.

Lemma convert_invoice_lines_list (idoklad_invoice : value) (items : list value) :
  idoklad_invoice.["IssuedInvoiceItems"] = Ok (VList items) ->
  convert_invoice_lines idoklad_invoice
  = lines ← convert_lines_loop items []; Ok (VList lines).
Proof. intros H. unfold convert_invoice_lines. run_bind. reflexivity. Qed.

(** X9. The lines of an invoice whose items are the items of a first
    invoice followed by those of a second are the lines of the first
    followed by the lines of the second; and the exception of the first, or
    else of the second, when one of them raises. *)
Theorem convert_invoice_lines_app
    (first second both : value) (xs ys : list value) :
  first.["IssuedInvoiceItems"] = Ok (VList xs) ->
  second.["IssuedInvoiceItems"] = Ok (VList ys) ->
  both.["IssuedInvoiceItems"] = Ok (VList (xs ++ ys)) ->
  convert_invoice_lines both
  = match convert_invoice_lines first, convert_invoice_lines second with
    | Raise e, _ => Raise e
    | Ok _, Raise e => Raise e
    | Ok (VList a), Ok (VList b) => Ok (VList (a ++ b))
    | Ok _, Ok _ => Raise TypeError
    end.
Proof.
  intros Hxs Hys Hboth.
  rewrite (convert_invoice_lines_list _ _ Hxs), (convert_invoice_lines_list _ _ Hys),
    (convert_invoice_lines_list _ _ Hboth), convert_lines_loop_app.
  unfold mbind, result_bind.
  destruct (convert_lines_loop xs []) as [a|]; [|reflexivity].
  rewrite convert_lines_loop_from. unfold mbind, result_bind.
  destruct (convert_lines_loop ys []) as [b|]; reflexivity.
Qed.

Lemma convert_invoice_lines_app_witness :
  convert_invoice_lines
    (VDict [("IssuedInvoiceItems",
             VList ([line_item "A1" "Consulting" (VInt 1000)]
                    ++ [line_item "ZaokPol" "Rounding" (VInt 0);
                        line_item "B2" "Travel" (VInt 50)]))])
  = match convert_invoice_lines
            (VDict [("IssuedInvoiceItems",
                     VList [line_item "A1" "Consulting" (VInt 1000)])]),
          convert_invoice_lines
            (VDict [("IssuedInvoiceItems",
                     VList [line_item "ZaokPol" "Rounding" (VInt 0);
                            line_item "B2" "Travel" (VInt 50)])])
    with
    | Raise e, _ => Raise e
    | Ok _, Raise e => Raise e
    | Ok (VList a), Ok (VList b) => Ok (VList (a ++ b))
    | Ok _, Ok _ => Raise TypeError
    end.
Proof.
  apply (convert_invoice_lines_app _ _ _
           [line_item "A1" "Consulting" (VInt 1000)]
           [line_item "ZaokPol" "Rounding" (VInt 0); line_item "B2" "Travel" (VInt 50)]);
    reflexivity.
Defined.

Lemma is_rounding_item_skipped (item : value) :
  is_rounding_item item = true -> convert_line_item item = Ok None.
Proof.
  unfold is_rounding_item, convert_line_item.
  destruct (item.["Code"]) as [code|]; [|discriminate].
  destruct (item.["TotalPrice"]) as [total|]; [|discriminate].
  intros [H1 H2]%andb_prop. cbn [mbind result_bind]. rewrite H1.
  cbn [mbind result_bind]. rewrite H2. reflexivity.
Qed.

(** Removing the rounding items from the list changes nothing for the
    loop. *)
Lemma convert_lines_loop_filter (items lines : list value) :
  convert_lines_loop (List.filter (fun item => negb (is_rounding_item item)) items) lines
  = convert_lines_loop items lines.
Proof.
  revert lines. induction items as [|item rest IH]; intros lines; [reflexivity|].
  cbn [List.filter]. destruct (is_rounding_item item) eqn:E; cbn [negb].
  - rewrite (convert_lines_loop_cons item rest), (is_rounding_item_skipped _ E).
    apply IH.
  - rewrite !convert_lines_loop_cons.
    destruct (convert_line_item item) as [line|e]; cbn [mbind result_bind];
      [apply IH | reflexivity].
Qed.

(** X10. Rounding items are invisible to [convert_invoice_lines]: an
    invoice and the same invoice with its rounding items removed give the
    same lines, or the same exception, and a rounding item is skipped
    before any other of its fields is read. *)
Theorem convert_invoice_lines_without_rounding_items
    (idoklad_invoice cleaned : value) (items : list value) :
  idoklad_invoice.["IssuedInvoiceItems"] = Ok (VList items) ->
  cleaned.["IssuedInvoiceItems"]
  = Ok (VList (List.filter (fun item => negb (is_rounding_item item)) items)) ->
  convert_invoice_lines cleaned = convert_invoice_lines idoklad_invoice.
Proof.
  intros Hitems Hcleaned.
  rewrite (convert_invoice_lines_list _ _ Hitems),
    (convert_invoice_lines_list _ _ Hcleaned), convert_lines_loop_filter.
  reflexivity.
Qed.

Lemma convert_invoice_lines_without_rounding_items_witness :
  convert_invoice_lines
    (VDict [("IssuedInvoiceItems",
             VList (List.filter (fun item => negb (is_rounding_item item))
                                [VDict [("Code", VStr "ZaokPol"); ("TotalPrice", VInt 0)];
                                 line_item "A1" "Consulting" (VInt 1000)]))])
  = convert_invoice_lines
      (VDict [("IssuedInvoiceItems",
               VList [VDict [("Code", VStr "ZaokPol"); ("TotalPrice", VInt 0)];
                      line_item "A1" "Consulting" (VInt 1000)])]).
Proof.
  apply (convert_invoice_lines_without_rounding_items
           _ _ [VDict [("Code", VStr "ZaokPol"); ("TotalPrice", VInt 0)];
                line_item "A1" "Consulting" (VInt 1000)]);
    reflexivity.
Defined.

(** ** The remote client *)

Section ClientFacts.

Variable respond : list request -> request -> result response.

(** X1. [get_subjects] sends one GET to the subjects collection of the
    account, with the email and the API key as credentials. It returns the
    parsed body on status 200 only; any other status raises RequestFailed
    with the method, the path, the status and the body; an exception of the
    HTTP library is passed on. *)
Theorem get_subjects_outcome (account email key : string) (w : world) (resp : response) :
  let fakturoid := FakturoidAPI_init account email key in
  let req :=
    {| req_method := "GET";
       req_url := ("https://app.fakturoid.cz/api/v2/accounts/" +:+ account)
                  +:+ "/subjects.json";
       req_auth := (email, key);
       req_headers := [("User-Agent", "iDoklad2Fakturoid (dan.keder@gmail.com)")];
       req_json := None |} in
  snd (run (get_subjects respond fakturoid) w) = emit (EvRequest req) w /\
  (forall e, respond (requests (log w)) req = Raise e ->
             fst (run (get_subjects respond fakturoid) w) = Raise e) /\
  (respond (requests (log w)) req = Ok resp ->
   status_code resp = 200 ->
   fst (run (get_subjects respond fakturoid) w) = json resp) /\
  (respond (requests (log w)) req = Ok resp ->
   status_code resp <> 200 ->
   fst (run (get_subjects respond fakturoid) w)
   = Raise (RequestFailed "GET" "/subjects.json" (status_code resp) (text resp))).
Proof.
  intros fakturoid req. unfold get_subjects, _api_get.
  change (send respond _) with (send respond req).
  rewrite run_bind. cbn [run send].
  destruct (respond (requests (log w)) req) as [r|e] eqn:E.
  - split; [|split; [discriminate|split]].
    + destruct (status_code r =? 200); reflexivity.
    + intros [= ->] ->. reflexivity.
    + intros [= ->] Hne. apply Z.eqb_neq in Hne. rewrite Hne. reflexivity.
  - split; [reflexivity|]. split; [intros e' [= ->]; reflexivity|].
    split; discriminate.
Qed.

(** X2. [create_invoice] sends one POST to the invoices collection with
    the record as JSON body. It returns the parsed body on status 201 only;
    any other status, 200 included, raises RequestFailed with the method,
    the path, the status and the body. *)
Theorem create_invoice_outcome
    (account email key : string) (invoice : value) (w : world) (resp : response) :
  let fakturoid := FakturoidAPI_init account email key in
  let req :=
    {| req_method := "POST";
       req_url := ("https://app.fakturoid.cz/api/v2/accounts/" +:+ account)
                  +:+ "/invoices.json";
       req_auth := (email, key);
       req_headers := [("User-Agent", "iDoklad2Fakturoid (dan.keder@gmail.com)")];
       req_json := Some invoice |} in
  snd (run (create_invoice respond fakturoid invoice) w) = emit (EvRequest req) w /\
  (forall e, respond (requests (log w)) req = Raise e ->
             fst (run (create_invoice respond fakturoid invoice) w) = Raise e) /\
  (respond (requests (log w)) req = Ok resp ->
   status_code resp = 201 ->
   fst (run (create_invoice respond fakturoid invoice) w) = json resp) /\
  (respond (requests (log w)) req = Ok resp ->
   status_code resp <> 201 ->
   fst (run (create_invoice respond fakturoid invoice) w)
   = Raise (RequestFailed "POST" "/invoices.json" (status_code resp) (text resp))).
Proof.
  intros fakturoid req. unfold create_invoice, _api_post.
  change (send respond _) with (send respond req).
  rewrite run_bind. cbn [run send].
  destruct (respond (requests (log w)) req) as [r|e] eqn:E.
  - split; [|split; [discriminate|split]].
    + destruct (status_code r =? 201); reflexivity.
    + intros [= ->] ->. reflexivity.
    + intros [= ->] Hne. apply Z.eqb_neq in Hne. rewrite Hne. reflexivity.
  - split; [reflexivity|]. split; [intros e' [= ->]; reflexivity|].
    split; discriminate.
Qed.

End ClientFacts.

(** A service that is down for maintenance. *)
Lemma get_subjects_outcome_witness :
  fst (run (get_subjects
              (fun _ _ => Ok {| status_code := 503; text := "Maintenance";
                                json := Raise (OtherError "JSONDecodeError") |})
              (FakturoidAPI_init "acme" "billing@example.com" "secret"))
           empty_world)
  = Raise (RequestFailed "GET" "/subjects.json" 503 "Maintenance").
Proof.
  pose proof (get_subjects_outcome
                (fun _ _ => Ok {| status_code := 503; text := "Maintenance";
                                  json := Raise (OtherError "JSONDecodeError") |})
                "acme" "billing@example.com" "secret" empty_world
                {| status_code := 503; text := "Maintenance";
                   json := Raise (OtherError "JSONDecodeError") |}) as T.
  cbv zeta in T. destruct T as (_ & _ & _ & T).
  apply T; [reflexivity | discriminate].
Defined.

(** A service that answers 200 where 201 is expected. *)
Lemma create_invoice_outcome_witness :
  fst (run (create_invoice
              (fun _ _ => Ok {| status_code := 200; text := "{}";
                                json := Ok (VDict []) |})
              (FakturoidAPI_init "acme" "billing@example.com" "secret")
              (VDict [("number", VStr "20160001")]))
           empty_world)
  = Raise (RequestFailed "POST" "/invoices.json" 200 "{}").
Proof.
  pose proof (create_invoice_outcome
                (fun _ _ => Ok {| status_code := 200; text := "{}";
                                  json := Ok (VDict []) |})
                "acme" "billing@example.com" "secret"
                (VDict [("number", VStr "20160001")]) empty_world
                {| status_code := 200; text := "{}"; json := Ok (VDict []) |}) as T.
  cbv zeta in T. destruct T as (_ & _ & _ & T).
  apply T; [reflexivity | discriminate].
Defined.

(** ** Whole runs *)

Lemma dict_get_set (items : list (string * value)) (k : string) (v : value) :
  dict_get (dict_set items k v) k = Some v.
Proof.
  induction items as [|[k' v'] rest IH]; simpl.
  - rewrite String.eqb_refl. reflexivity.
  - destruct (String.eqb k' k) eqn:E; simpl; rewrite E; [reflexivity | exact IH].
Qed.

(** After [cache[k] = v] the key is in the cache, with that value. *)
Lemma setitem_contains (cache cache' v : value) (k : string) :
  setitem cache k v = Ok cache' ->
  py_contains cache' k = Ok true /\ cache'.[k] = Ok v.
Proof.
  destruct cache; try discriminate. intros [= <-].
  unfold py_contains, subscript. rewrite dict_get_set. split; reflexivity.
Qed.

Section RunFacts.

Variable pickle_dumps : value -> list Byte.byte.
Variable pickle_loads : list Byte.byte -> result value.
Variable json_loads : list Byte.byte -> result value.
Variable respond : list request -> request -> result response.

(** Loading the cache always gives a table, and touches neither the files
    nor the service. *)
Lemma load_cache_quiet (w : world) :
  exists cache w1,
    run (load_cache pickle_loads) w = (Ok cache, w1) /\
    fs w1 = fs w /\ requests (log w1) = requests (log w).
Proof.
  assert (H1 : requests (log (emit loading_cache w)) = requests (log w)).
  { simpl. rewrite requests_app. apply app_nil_r. }
  assert (H2 : forall e, requests (log (emit (cache_warning e) (emit loading_cache w)))
                         = requests (log w)).
  { intros e. simpl. rewrite !requests_app. simpl. rewrite !app_nil_r. reflexivity. }
  destruct (fs w !! CACHE_FILE) as [[data|]|] eqn:E.
  - rewrite (load_cache_file pickle_loads w data E).
    destruct (pickle_loads data) as [cache|[]]; eauto 6.
  - rewrite load_cache_unreadable by (right; exact E). eauto 6.
  - rewrite load_cache_unreadable by (left; exact E). eauto 6.
Qed.

Lemma json_load_run (path : string) (w : world) :
  run (json_load json_loads path) w = (file_json json_loads w path, w).
Proof.
  unfold json_load, file_json. rewrite run_bind. cbn [run read_file].
  destruct (fs w !! path) as [[data|]|]; reflexivity.
Qed.

(** The body of the loop raises on every record. *)
Lemma process_invoice_raises (fakturoid : FakturoidAPI)
    (fakturoid_subjects idoklad_invoice : value) (w : world) :
  exists e w',
    run (process_invoice respond fakturoid fakturoid_subjects idoklad_invoice) w
    = (Raise e, w').
Proof.
  unfold process_invoice. rewrite run_bind. cbn [run lift].
  destruct (idoklad_invoice.["DocumentNumber"]) as [number|e]; [|eauto].
  rewrite run_bind. cbn [run print]. rewrite run_bind. cbn [run lift].
  destruct (convert_invoice idoklad_invoice fakturoid_subjects) as [v|e] eqn:E;
    [|eauto].
  destruct (convert_invoice_never_returns _ _ _ E).
Qed.

(** X11. A run that ends without an exception has imported nothing: the
    input file was read and parsed, and its [Data] is empty. *)
Theorem main_returns_only_on_empty_data (args : arguments) (w : world) :
  fst (run (main pickle_dumps pickle_loads json_loads respond args) w) = Ok () ->
  exists idoklad_invoices data,
    file_json json_loads w (idoklad_invoices_json args) = Ok idoklad_invoices /\
    idoklad_invoices.["Data"] = Ok data /\
    py_iter data = Ok [].
Proof.
  destruct (load_cache_quiet w) as (cache & w1 & Hload & Hfs & _).
  unfold main. rewrite (run_bind_ok _ _ _ _ _ Hload). cbv zeta.
  rewrite run_bind, json_load_run.
  replace (file_json json_loads w1 (idoklad_invoices_json args))
    with (file_json json_loads w (idoklad_invoices_json args))
    by (unfold file_json; rewrite Hfs; reflexivity).
  destruct (file_json json_loads w (idoklad_invoices_json args))
    as [idoklad_invoices|]; [|discriminate].
  rewrite run_bind.
  destruct (run (fetch_subjects pickle_dumps respond _ cache) w1) as [[cache'|] w2];
    [|discriminate].
  rewrite run_bind. cbn [run lift].
  destruct (cache'.["fakturoid_subjects"]) as [fakturoid_subjects|]; [|discriminate].
  rewrite run_bind. cbn [run lift].
  destruct (idoklad_invoices.["Data"]) as [data|] eqn:Edata; [|discriminate].
  rewrite run_bind. cbn [run lift].
  destruct (py_iter data) as [[|x rest]|] eqn:Eiter; [ | | discriminate].
  { intros _. exists idoklad_invoices, data. repeat split; assumption. }
  rewrite run_bind. cbn [for_each]. rewrite run_bind.
  match goal with
  | |- context [run (process_invoice respond ?f ?s x) w2] =>
      destruct (process_invoice_raises f s x w2) as (e & w3 & ->)
  end.
  discriminate.
Qed.

(** X12. The input file is read before the subjects are fetched: when it
    is missing, is a directory or does not parse, the run ends with that
    exception, having sent no request and written no file. *)
Theorem main_unreadable_input (args : arguments) (w : world) (e : exn) :
  file_json json_loads w (idoklad_invoices_json args) = Raise e ->
  exists w',
    run (main pickle_dumps pickle_loads json_loads respond args) w = (Raise e, w') /\
    fs w' = fs w /\
    requests (log w') = requests (log w).
Proof.
  intros Hinput.
  destruct (load_cache_quiet w) as (cache & w1 & Hload & Hfs & Hreq).
  exists w1. split; [|split; assumption].
  unfold main. rewrite (run_bind_ok _ _ _ _ _ Hload). cbv zeta.
  rewrite run_bind, json_load_run.
  replace (file_json json_loads w1 (idoklad_invoices_json args))
    with (file_json json_loads w (idoklad_invoices_json args))
    by (unfold file_json; rewrite Hfs; reflexivity).
  rewrite Hinput. reflexivity.
Qed.

Lemma MESSAGES_request_failed :
  MESSAGES.["request_failed"]
  = Ok (VStr ("%s %s failed with code %s" +:+ String newline (String newline "%s"))).
Proof. reflexivity. Qed.

(** X13. When the subjects are not in the cache and the service answers
    with a status other than 200, the block raises RequestFailed and leaves
    the files as they were: nothing is cached, and the next run asks
    again. *)
Theorem fetch_subjects_request_failed
    (fakturoid : FakturoidAPI) (cache : value) (resp : response) (w : world) :
  py_contains cache "fakturoid_subjects" = Ok false ->
  respond (requests (log w)) (subjects_request fakturoid) = Ok resp ->
  status_code resp <> 200 ->
  run (fetch_subjects pickle_dumps respond fakturoid cache) w
  = (Raise (RequestFailed "GET" "/subjects.json" (status_code resp) (text resp)),
     {| fs := fs w;
        log := log w ++ [EvPrint [PVal (VStr "Loading subjects from Fakturoid API")];
                         EvRequest (subjects_request fakturoid)] |}).
Proof.
  intros Hkey Hresp Hstatus. apply Z.eqb_neq in Hstatus.
  unfold fetch_subjects, get_subjects, _api_get.
  fold (subjects_request fakturoid).
  rewrite run_bind. cbn [run lift]. rewrite Hkey. cbn [negb].
  rewrite run_bind. cbn [run print].
  rewrite run_bind, run_bind. cbn [run send emit log fs].
  rewrite requests_app. cbn [requests]. rewrite app_nil_r, Hresp, Hstatus.
  rewrite run_bind, MESSAGES_request_failed. cbn [run lift raise].
  unfold emit. cbn [fs log]. rewrite <- app_assoc. reflexivity.
Qed.

(** X14. The cache works across runs. After the block has fetched the
    subjects and written the cache, a later load of the cache file, given
    the round trip of [pickle] on the cache written, gives the populated
    cache; on it the block does nothing, and the subjects are the ones
    fetched. *)
Theorem cache_reused_by_next_run
    (fakturoid : FakturoidAPI) (cache cache' subjects : value)
    (resp : response) (w : world) :
  py_contains cache "fakturoid_subjects" = Ok false ->
  respond (requests (log w)) (subjects_request fakturoid) = Ok resp ->
  status_code resp = 200 ->
  json resp = Ok subjects ->
  setitem cache "fakturoid_subjects" subjects = Ok cache' ->
  fs w !! CACHE_FILE <> Some Directory ->
  pickle_loads (pickle_dumps cache') = Ok cache' ->
  forall w2,
    fs w2 = fs (snd (run (fetch_subjects pickle_dumps respond fakturoid cache) w)) ->
    run (load_cache pickle_loads) w2 = (Ok cache', emit loading_cache w2) /\
    (forall (fakturoid' : FakturoidAPI) (w3 : world),
        run (fetch_subjects pickle_dumps respond fakturoid' cache') w3 = (Ok cache', w3)) /\
    cache'.["fakturoid_subjects"] = Ok subjects.
Proof.
  intros Hkey Hresp Hstatus Hjson Hset Hdir Hpickle w2 Hfs.
  rewrite (fetch_subjects_miss pickle_dumps respond fakturoid cache cache' subjects
             resp w Hkey Hresp Hstatus Hjson Hset Hdir) in Hfs.
  cbn [snd fs] in Hfs.
  destruct (setitem_contains _ _ _ _ Hset) as [Hin Hget].
  split; [|split; [|exact Hget]].
  - rewrite (load_cache_file pickle_loads w2 (pickle_dumps cache')).
    + rewrite Hpickle. reflexivity.
    + rewrite Hfs. apply lookup_insert_eq.
  - intros fakturoid' w3. apply fetch_subjects_hit, Hin.
Qed.

End RunFacts.

Lemma main_returns_only_on_empty_data_witness :
  exists idoklad_invoices data,
    file_json (fun _ => Ok (VDict [("Data", VList [])])) sample_world
              (idoklad_invoices_json sample_args)
    = Ok idoklad_invoices /\
    idoklad_invoices.["Data"] = Ok data /\
    py_iter data = Ok [].
Proof.
  apply (main_returns_only_on_empty_data
           sample_pickle_dumps sample_pickle_loads
           (fun _ => Ok (VDict [("Data", VList [])])) sample_respond).
  vm_compute. reflexivity.
Defined.

Lemma main_unreadable_input_witness :
  exists w',
    run (main sample_pickle_dumps sample_pickle_loads sample_json_loads sample_respond
              sample_args) empty_world
    = (Raise IOError, w') /\
    fs w' = fs empty_world /\
    requests (log w') = requests (log empty_world).
Proof.
  apply (main_unreadable_input
           sample_pickle_dumps sample_pickle_loads sample_json_loads sample_respond).
  reflexivity.
Defined.

Lemma fetch_subjects_request_failed_witness :
  run (fetch_subjects sample_pickle_dumps
         (fun _ _ => Ok {| status_code := 401; text := "Unauthorized";
                           json := Ok VNone |})
         (FakturoidAPI_init "acme" "billing@example.com" "wrong") (VDict []))
      empty_world
  = (Raise (RequestFailed "GET" "/subjects.json" 401 "Unauthorized"),
     {| fs := fs empty_world;
        log := log empty_world
               ++ [EvPrint [PVal (VStr "Loading subjects from Fakturoid API")];
                   EvRequest (subjects_request
                                (FakturoidAPI_init "acme" "billing@example.com"
                                                   "wrong"))] |}).
Proof.
  apply (fetch_subjects_request_failed
           sample_pickle_dumps
           (fun _ _ => Ok {| status_code := 401; text := "Unauthorized";
                             json := Ok VNone |})
           (FakturoidAPI_init "acme" "billing@example.com" "wrong") (VDict [])
           {| status_code := 401; text := "Unauthorized"; json := Ok VNone |}).
  - reflexivity.
  - reflexivity.
  - discriminate.
Defined.

Lemma cache_reused_by_next_run_witness :
  run (load_cache sample_pickle_loads)
      {| fs := <[CACHE_FILE := File sample_cache_bytes]> (fs cold_world); log := [] |}
  = (Ok sample_cache,
     emit loading_cache
          {| fs := <[CACHE_FILE := File sample_cache_bytes]> (fs cold_world);
             log := [] |}) /\
  run (fetch_subjects sample_pickle_dumps sample_respond
                      (FakturoidAPI_init "acme" "billing@example.com" "secret")
                      sample_cache)
      empty_world
  = (Ok sample_cache, empty_world) /\
  sample_cache.["fakturoid_subjects"] = Ok (VList sample_subjects).
Proof.
  destruct (cache_reused_by_next_run
              sample_pickle_dumps sample_pickle_loads sample_respond
              (FakturoidAPI_init "acme" "billing@example.com" "secret")
              (VDict []) sample_cache (VList sample_subjects)
              {| status_code := 200; text := "OK"; json := Ok (VList sample_subjects) |}
              cold_world)
    with (w2 := {| fs := <[CACHE_FILE := File sample_cache_bytes]> (fs cold_world);
                   log := [] |})
    as (Hload & Hhit & Hget).
  - reflexivity.
  - reflexivity.
  - reflexivity.
  - reflexivity.
  - reflexivity.
  - discriminate.
  - reflexivity.
  - reflexivity.
  - split; [exact Hload|]. split; [apply Hhit | exact Hget].
Defined.

(** ** What a run leaves alone *)

Lemma steps_lift {A : Type} (R : world -> world -> Prop) (HR : frame R) (r : result A) :
  steps R (lift r).
Proof. intros w. apply (frame_refl R HR). Qed.

Lemma steps_ret {A : Type} (R : world -> world -> Prop) (HR : frame R) (a : A) :
  steps R (mret a).
Proof. intros w. apply (frame_refl R HR). Qed.

Lemma steps_print (R : world -> world -> Prop) (HR : frame R) (objs : list printed) :
  steps R (print objs).
Proof. intros w. apply (frame_emit R HR). Qed.

Lemma steps_read_file (R : world -> world -> Prop) (HR : frame R) (path : string) :
  steps R (read_file path).
Proof.
  intros w. cbn [run read_file].
  destruct (fs w !! path) as [[data|]|]; apply (frame_refl R HR).
Qed.

Lemma steps_write_cache (R : world -> world -> Prop) (HR : frame R)
    (data : list Byte.byte) :
  steps R (write_file CACHE_FILE data).
Proof.
  intros w. cbn [run write_file].
  destruct (fs w !! CACHE_FILE) as [[old|]|];
    first [apply (frame_write R HR) | apply (frame_refl R HR)].
Qed.

Lemma steps_bind {A B : Type} (R : world -> world -> Prop) (HR : frame R)
    (m : io A) (f : A -> io B) :
  steps R m -> (forall a, steps R (f a)) -> steps R (m ≫= f).
Proof.
  intros Hm Hf w. rewrite run_bind. specialize (Hm w).
  destruct (run m w) as [[a|e] w']; cbn [snd] in *; [|exact Hm].
  exact (frame_trans R HR _ _ _ Hm (Hf a w')).
Qed.

Lemma steps_try_except {A : Type} (R : world -> world -> Prop) (HR : frame R)
    (body : io A) (handler : exn -> io A) :
  steps R body -> (forall e, steps R (handler e)) -> steps R (try_except body handler).
Proof.
  intros Hb Hh w. cbn [run try_except]. specialize (Hb w).
  destruct (run body w) as [[a|e] w']; cbn [snd] in *; [exact Hb|].
  exact (frame_trans R HR _ _ _ Hb (Hh e w')).
Qed.

Lemma frame_only_cache_written : frame only_cache_written.
Proof.
  split; unfold only_cache_written.
  - reflexivity.
  - intros w1 w2 w3 H12 H23 path Hpath. rewrite (H23 path Hpath). exact (H12 path Hpath).
  - reflexivity.
  - intros data w path Hpath. cbn [fs]. apply lookup_insert_ne. congruence.
Qed.

Section FrameFacts.

Variable pickle_dumps : value -> list Byte.byte.
Variable pickle_loads : list Byte.byte -> result value.
Variable json_loads : list Byte.byte -> result value.
Variable respond : list request -> request -> result response.

(** Breaks a computation of the script into its primitive effects. *)
Ltac framed HR :=
  repeat first
    [ apply (steps_lift _ HR) | apply (steps_ret _ HR) | apply (steps_print _ HR)
    | apply (steps_read_file _ HR) | apply (steps_write_cache _ HR)
    | apply (steps_bind _ HR); [|intros ?]
    | apply (steps_try_except _ HR); [|intros ?]
    | match goal with
      | |- steps _ (if ?b then _ else _) => destruct b
      | |- steps _ (match ?e with _ => _ end) => destruct e
      end ].

Lemma steps_send (R : world -> world -> Prop) (HR : frame R) (req : request) :
  steps R (send respond req).
Proof. intros w. apply (frame_emit R HR). Qed.

Lemma steps_for_each (R : world -> world -> Prop) (HR : frame R)
    (xs : list value) (body : value -> io unit) :
  (forall x, steps R (body x)) -> steps R (for_each xs body).
Proof.
  intros Hbody. induction xs as [|x rest IH]; cbn [for_each].
  - apply (steps_ret _ HR).
  - apply (steps_bind _ HR); [apply Hbody | intros _; exact IH].
Qed.

(** Every relation that printing, sending a request and writing the cache
    file respect holds between the worlds before and after a run. *)
Lemma steps_main (R : world -> world -> Prop) (HR : frame R) (args : arguments) :
  steps R (main pickle_dumps pickle_loads json_loads respond args).
Proof.
  unfold main, load_cache, pickle_load, json_load, fetch_subjects, get_subjects,
    _api_get, pickle_dump, raise.
  cbv zeta.
  repeat first
    [ apply (steps_send _ HR)
    | apply (steps_for_each _ HR); intros ?;
      unfold process_invoice, create_invoice, _api_post, raise
    | progress framed HR ].
Qed.

(** X15. The only file a run writes is the cache file: every other path
    of the file system, the input file among them, is after the run what it
    was before. *)
Theorem main_writes_only_cache_file (args : arguments) (w : world) (path : string) :
  path <> CACHE_FILE ->
  fs (snd (run (main pickle_dumps pickle_loads json_loads respond args) w)) !! path
  = fs w !! path.
Proof.
  intros Hpath. exact (steps_main _ frame_only_cache_written args w path Hpath).
Qed.

End FrameFacts.

Lemma main_writes_only_cache_file_witness :
  fs (snd (run (main sample_pickle_dumps sample_pickle_loads sample_json_loads
                     sample_respond sample_args) cold_world))
  !! "invoices.json"
  = fs cold_world !! "invoices.json".
Proof.
  apply (main_writes_only_cache_file
           sample_pickle_dumps sample_pickle_loads sample_json_loads sample_respond).
  discriminate.
Defined.

(** ** What a run sends *)

Section RequestFacts.

Variable pickle_dumps : value -> list Byte.byte.
Variable pickle_loads : list Byte.byte -> result value.
Variable json_loads : list Byte.byte -> result value.
Variable respond : list request -> request -> result response.

(** X16. A run sends at most one request, the GET of the subjects of the
    account given on the command line, and never a POST: no invoice is
    created, whatever the input, the cache and the answers of the
    service. *)
Theorem main_sends_only_the_subjects_request (args : arguments) (w : world) :
  let fakturoid :=
    FakturoidAPI_init (fakturoid_account_name args) (fakturoid_email args)
                      (fakturoid_api_key args) in
  let w' := snd (run (main pickle_dumps pickle_loads json_loads respond args) w) in
  (requests (log w') = requests (log w) \/
   requests (log w') = requests (log w) ++ [subjects_request fakturoid]) /\
  invoice_posts (log w') = invoice_posts (log w).
Proof.
  intros fakturoid w'. subst w'.
  destruct (sends_main pickle_dumps pickle_loads json_loads respond args w)
    as (reqs & E & HP & Hlen).
  fold fakturoid in HP.
  destruct reqs as [|req [|req' reqs]]; [| |simpl in Hlen; lia].
  - rewrite app_nil_r in E. split; [left; exact E|].
    unfold invoice_posts. rewrite E. reflexivity.
  - apply Forall_inv in HP. subst req. split; [right; exact E|].
    unfold invoice_posts. rewrite E, List.filter_app. cbn. apply app_nil_r.
Qed.

(** X17. The loop takes the records in order and stops at the first one
    on which its body raises: the records after it are not looked at, and
    the exception and the world are those the body left. *)
Theorem for_each_stops_at_first_exception
    (before after : list value) (x : value) (body : value -> io unit)
    (w w1 w2 : world) (e : exn) :
  run (for_each before body) w = (Ok (), w1) ->
  run (body x) w1 = (Raise e, w2) ->
  run (for_each (before ++ x :: after) body) w = (Raise e, w2).
Proof. apply for_each_raise. Qed.

End RequestFacts.

Lemma for_each_stops_at_first_exception_witness :
  run (for_each ([VDict [("DocumentNumber", VStr "1")]]
                 ++ VDict [] :: [VDict [("DocumentNumber", VStr "3")]])
                (fun x => number ← lift x.["DocumentNumber"]; print [PVal number]))
      empty_world
  = (Raise (KeyError "DocumentNumber"), emit (EvPrint [PVal (VStr "1")]) empty_world).
Proof.
  apply (for_each_stops_at_first_exception
           [VDict [("DocumentNumber", VStr "1")]]
           [VDict [("DocumentNumber", VStr "3")]] (VDict [])
           (fun x => number ← lift x.["DocumentNumber"]; print [PVal number])
           empty_world (emit (EvPrint [PVal (VStr "1")]) empty_world)).
  - reflexivity.
  - reflexivity.
Defined.
